(** * A shallow embedding of the résumé parser

    Source files embedded here:
    - [resume-parser/scripts/resume_parser.py] (class [AdvancedResumeParser])
    - [resume-parser/scripts/utils.py] ([save_report])

    Third-party capabilities (pdfplumber, spaCy, dateparser, the operating
    system's files and clock) are not part of the repository; they appear as
    fields of an environment record and every theorem quantifies over them.

    Text is modelled with Rocq's [string]; a character ([ascii]) stands for
    the Unicode code point of the same number, U+0000 to U+00FF. *)

From Stdlib Require Import ZArith NArith Ascii String List Bool Lia.
From Stdlib Require Import Sorted Permutation.
From stdpp Require Import base option list gmap strings.

Local Open Scope string_scope.

(** ** Exceptions

    A Python computation either returns a value or raises; [Raise] carries
    [str(e)], which is all the batch driver ever looks at. *)

Inductive result (A : Type) : Type :=
| Ok (a : A)
| Raise (msg : string).
Arguments Ok {A} a.
Arguments Raise {A} msg.

Definition rbind {A B : Type} (m : result A) (f : A -> result B) : result B :=
  match m with
  | Ok a => f a
  | Raise e => Raise e
  end.

Notation "'do' x <- m ; f" := (rbind m (fun x => f))
  (at level 10, x name, m at level 100, f at level 200,
   format "'[v' 'do'  x  <-  m ; '/' f ']'").

(** ** Python [str] methods *)

Module Py.

Definition code (c : ascii) : N := N_of_ascii c.

Definition between (lo hi : N) (c : ascii) : bool :=
  ((lo <=? code c) && (code c <=? hi))%N.

(** [str.isspace] on one character, which is also the class [\s] of [re]
    for [str] patterns. *)
Definition isspace (c : ascii) : bool :=
  between 9 13 c || between 28 32 c || (code c =? 133)%N || (code c =? 160)%N.

(** [str.isalnum] on one character. *)
Definition isalnum (c : ascii) : bool :=
  between 48 57 c || between 65 90 c || between 97 122 c
  || (code c =? 170)%N || between 178 179 c || (code c =? 181)%N
  || between 185 186 c || between 188 190 c
  || between 192 214 c || between 216 246 c || between 248 255 c.

(** The class [\w] of [re]: alphanumeric or underscore. *)
Definition isword (c : ascii) : bool := isalnum c || (code c =? 95)%N.

Definition lower_char (c : ascii) : ascii :=
  if between 65 90 c || (between 192 222 c && negb (code c =? 215)%N)
  then ascii_of_N (code c + 32)
  else c.

(** [s.lower()] *)
Fixpoint lower (s : string) : string :=
  match s with
  | EmptyString => EmptyString
  | String c s' => String (lower_char c) (lower s')
  end.

(** [s.startswith(p)] *)
Fixpoint startswith (s p : string) {struct p} : bool :=
  match p, s with
  | EmptyString, _ => true
  | String a p', String b s' => Ascii.eqb a b && startswith s' p'
  | String _ _, EmptyString => false
  end.

(** [sub in s] *)
Fixpoint contains (sub s : string) : bool :=
  startswith s sub ||
  match s with
  | EmptyString => false
  | String _ s' => contains sub s'
  end.

(** [s.endswith(suf)] *)
Fixpoint endswith (s suf : string) : bool :=
  String.eqb s suf ||
  match s with
  | EmptyString => false
  | String _ s' => endswith s' suf
  end.

(** [s[:n]] for [0 <= n] *)
Fixpoint take (n : nat) (s : string) : string :=
  match n, s with
  | S n', String c s' => String c (take n' s')
  | _, _ => EmptyString
  end.

(** [s[::-1]] *)
Fixpoint rev (s : string) : string :=
  match s with
  | EmptyString => EmptyString
  | String c s' => rev s' ++ String c EmptyString
  end.

(** [s.lstrip()], [s.rstrip()], [s.strip()] *)
Fixpoint lstrip (s : string) : string :=
  match s with
  | String c s' => if isspace c then lstrip s' else s
  | EmptyString => EmptyString
  end.

Fixpoint rstrip (s : string) : string :=
  match s with
  | EmptyString => EmptyString
  | String c s' =>
      match rstrip s' with
      | EmptyString => if isspace c then EmptyString else String c EmptyString
      | r => String c r
      end
  end.

Definition strip (s : string) : string := rstrip (lstrip s).

(** [s.split(sep)] for a non-empty [sep]: the pieces between the
    occurrences of [sep] found scanning left to right, an occurrence never
    overlapping the one before.  [skip] counts the characters of the
    occurrence just found that are still to be passed over; [cur] holds the
    current piece, reversed. *)
Fixpoint split_go (sep : string) (skip : nat) (cur : string) (s : string)
  : list string :=
  match s with
  | EmptyString => [rev cur]
  | String c s' =>
      match skip with
      | S n => split_go sep n cur s'
      | O =>
          if startswith s sep
          then rev cur :: split_go sep (String.length sep - 1) EmptyString s'
          else split_go sep 0 (String c cur) s'
      end
  end.

Definition split (sep s : string) : list string := split_go sep 0 EmptyString s.

(** [sep.join(parts)] *)
Fixpoint join (sep : string) (parts : list string) : string :=
  match parts with
  | [] => EmptyString
  | [p] => p
  | p :: rest => p ++ sep ++ join sep rest
  end.

(** [bool(s)]: a string is true when it is not empty. *)
Definition truthy (s : string) : bool :=
  match s with EmptyString => false | String _ _ => true end.

End Py.

(** ** The fragment of [re] the parser uses

    The patterns in the source are built from literal characters (matched
    under [re.IGNORECASE]), the classes [\s], [\w] and [.] (under
    [re.DOTALL]), alternation, [?], [*], [+], the lazy [*?], capturing
    groups, a lookahead and [$] (without [re.MULTILINE]).  The matcher is the
    usual backtracking one, written with a continuation: alternatives are
    tried left to right, greedy operators try the longer match first, lazy
    ones the shorter. *)

Module Re.

Inductive regex : Type :=
| Eps
| Chr (p : ascii -> bool)
| Cat (r1 r2 : regex)
| Alt (r1 r2 : regex)
| Opt (r : regex)
| Star (r : regex)
| LazyStar (r : regex)
| Group (n : nat) (r : regex)
| Ahead (r : regex)
| Eos.

(** [r+] is [rr*]. *)
Definition Plus (r : regex) : regex := Cat r (Star r).

(** A position in the subject is the text that remains to be read; a
    capture maps a group number to the text the group matched. *)
Definition caps : Type := list (nat * string).

Definition answer : Type := (string * caps)%type.

Definition orelse (a b : option answer) : option answer :=
  match a with Some x => Some x | None => b end.

(** [$]: at the end of the text, or just before a newline that ends it. *)
Definition at_end (s : string) : bool :=
  match s with
  | EmptyString => true
  | String c EmptyString => Ascii.eqb c "010"
  | _ => false
  end.

(** [r*] and [r*?] around a matcher [body] for [r]: a turn of the loop
    that reads nothing ends it.  [fuel] starts at the length of the text
    left, and every turn reads at least one character, so it never runs
    out before the text does. *)
Fixpoint star_loop (body : string -> caps -> (string -> caps -> option answer) -> option answer)
         (k : string -> caps -> option answer)
         (fuel : nat) (s : string) (cs : caps) {struct fuel} : option answer :=
  match fuel with
  | O => k s cs
  | S fuel' =>
      orelse
        (body s cs (fun s1 cs1 =>
           if (String.length s1 <? String.length s)%nat
           then star_loop body k fuel' s1 cs1 else None))
        (k s cs)
  end.

Fixpoint lazy_loop (body : string -> caps -> (string -> caps -> option answer) -> option answer)
         (k : string -> caps -> option answer)
         (fuel : nat) (s : string) (cs : caps) {struct fuel} : option answer :=
  match fuel with
  | O => k s cs
  | S fuel' =>
      orelse
        (k s cs)
        (body s cs (fun s1 cs1 =>
           if (String.length s1 <? String.length s)%nat
           then lazy_loop body k fuel' s1 cs1 else None))
  end.

Fixpoint rmatch (r : regex) (s : string) (cs : caps)
         (k : string -> caps -> option answer) {struct r} : option answer :=
  match r with
  | Eps => k s cs
  | Chr p =>
      match s with
      | String c s' => if p c then k s' cs else None
      | EmptyString => None
      end
  | Cat r1 r2 => rmatch r1 s cs (fun s1 cs1 => rmatch r2 s1 cs1 k)
  | Alt r1 r2 => orelse (rmatch r1 s cs k) (rmatch r2 s cs k)
  | Opt r1 => orelse (rmatch r1 s cs k) (k s cs)
  | Star r1 => star_loop (rmatch r1) k (String.length s) s cs
  | LazyStar r1 => lazy_loop (rmatch r1) k (String.length s) s cs
  | Group n r1 =>
      rmatch r1 s cs (fun s1 cs1 =>
        k s1 ((n, Py.take (String.length s - String.length s1) s) :: cs1))
  | Ahead r1 =>
      match rmatch r1 s cs (fun s1 cs1 => Some (s1, cs1)) with
      | Some (_, cs1) => k s cs1
      | None => None
      end
  | Eos => if at_end s then k s cs else None
  end.

(** [re.search]: the match at the leftmost position that has one. *)
Fixpoint search (r : regex) (s : string) : option caps :=
  match rmatch r s [] (fun s1 cs => Some (s1, cs)) with
  | Some (_, cs) => Some cs
  | None =>
      match s with
      | String _ s' => search r s'
      | EmptyString => None
      end
  end.

(** [match.group(n)] for a group that took part in the match. *)
Fixpoint group (n : nat) (cs : caps) : string :=
  match cs with
  | [] => EmptyString
  | (m, t) :: cs' => if Nat.eqb n m then t else group n cs'
  end.

(** A literal character under [re.IGNORECASE]. *)
Definition ci (c : ascii) : regex :=
  Chr (fun x => Ascii.eqb (Py.lower_char x) (Py.lower_char c)).

(** A literal word under [re.IGNORECASE]. *)
Fixpoint lit (w : string) : regex :=
  match w with
  | EmptyString => Eps
  | String c w' => Cat (ci c) (lit w')
  end.

Definition any : regex := Chr (fun _ => true).
Definition space : regex := Chr Py.isspace.
Definition word : regex := Chr Py.isword.
Definition chr (c : ascii) : regex := Chr (Ascii.eqb c).

(** The continuation that accepts. *)
Definition accept : string -> caps -> option answer := fun s cs => Some (s, cs).

(** [p*] on a character class, greedy: read while [p] holds, then fall back
    one character at a time until the rest of the pattern matches. *)
Fixpoint greedy (p : ascii -> bool) (k : string -> caps -> option answer)
         (s : string) (cs : caps) : option answer :=
  match s with
  | String c s' => if p c then orelse (greedy p k s' cs) (k s cs) else k s cs
  | EmptyString => k s cs
  end.

(** [p*?] on a character class, lazy: try the rest of the pattern first,
    read one more character when it fails. *)
Fixpoint lazy (p : ascii -> bool) (k : string -> caps -> option answer)
         (s : string) (cs : caps) : option answer :=
  orelse (k s cs)
         match s with
         | String c s' => if p c then lazy p k s' cs else None
         | EmptyString => None
         end.

(** [s] without the characters of class [p] it begins with. *)
Fixpoint drop_while (p : ascii -> bool) (s : string) : string :=
  match s with
  | String c s' => if p c then drop_while p s' else s
  | EmptyString => EmptyString
  end.

End Re.

(** ** Section extractors working on the raw text *)

Definition nl : string := String "010" EmptyString.

(** [(?=\n\w+:|$)] *)
Definition next_label_or_end : Re.regex :=
  Re.Ahead (Re.Alt (Re.Cat (Re.chr "010") (Re.Cat (Re.Plus Re.word) (Re.chr ":")))
                   Re.Eos).

(** [(summary|objective):?\s*(.*?)(?=\n\w+:|$)] *)
Definition summary_re : Re.regex :=
  Re.Cat (Re.Group 1 (Re.Alt (Re.lit "summary") (Re.lit "objective")))
  (Re.Cat (Re.Opt (Re.chr ":"))
  (Re.Cat (Re.Star Re.space)
  (Re.Cat (Re.Group 2 (Re.LazyStar Re.any))
          next_label_or_end))).

(** [(education):?(.*?)(?=\n\w+:|$)] *)
Definition education_re : Re.regex :=
  Re.Cat (Re.Group 1 (Re.lit "education"))
  (Re.Cat (Re.Opt (Re.chr ":"))
  (Re.Cat (Re.Group 2 (Re.LazyStar Re.any))
          next_label_or_end)).

Definition _extract_summary (text : string) : string :=
  match Re.search summary_re text with
  | Some m => Py.strip (Re.group 2 m)
  | None => EmptyString
  end.

Definition _extract_education (text : string) : list string :=
  match Re.search education_re text with
  | Some m =>
      List.filter Py.truthy (List.map Py.strip (Py.split nl (Re.group 2 m)))
  | None => []
  end.

(** ** Dates

    A [datetime] as Python has it: calendar fields and an optional time
    zone.  [utcoffset] is [None] for a naive value and [Some o] for an aware
    one, [o] being the offset from UTC in seconds. *)

Record datetime : Type := mk_datetime {
  year : Z;
  month : Z;
  day : Z;
  hour : Z;
  minute : Z;
  second : Z;
  microsecond : Z;
  utcoffset : option Z
}.

Module Datetime.

Definition is_leap (y : Z) : bool :=
  ((y mod 4 =? 0) && (negb (y mod 100 =? 0) || (y mod 400 =? 0)))%Z.

Definition days_before_year (y : Z) : Z :=
  let p := (y - 1)%Z in (p * 365 + p / 4 - p / 100 + p / 400)%Z.

Definition days_in_month (y m : Z) : Z :=
  if (m =? 2)%Z then (if is_leap y then 29 else 28)%Z
  else if ((m =? 4) || (m =? 6) || (m =? 9) || (m =? 11))%Z then 30%Z
  else 31%Z.

Fixpoint days_before_month_go (y : Z) (n : nat) : Z :=
  match n with
  | O => 0%Z
  | S n' => (days_before_month_go y n' + days_in_month y (Z.of_nat n))%Z
  end.

Definition days_before_month (y m : Z) : Z :=
  days_before_month_go y (Z.to_nat (m - 1)).

(** [d.toordinal()]: 1 for 0001-01-01. *)
Definition toordinal (d : datetime) : Z :=
  (days_before_year (year d) + days_before_month (year d) (month d) + day d)%Z.

Definition us_per_day : Z := 86400000000%Z.

(** Microseconds from 0001-01-00 00:00 on the wall clock. *)
Definition wall (d : datetime) : Z :=
  (toordinal d * us_per_day
   + ((hour d * 60 + minute d) * 60 + second d) * 1000000
   + microsecond d)%Z.

(** The position of [d] on the time line, in microseconds: the wall clock
    itself for a naive value, the wall clock moved to UTC for an aware
    one. *)
Definition instant (d : datetime) : Z :=
  match utcoffset d with
  | None => wall d
  | Some o => (wall d - o * 1000000)%Z
  end.

Definition aware (d : datetime) : bool :=
  match utcoffset d with Some _ => true | None => false end.

Definition compare_error : string :=
  "can't compare offset-naive and offset-aware datetimes".

(** [a < b].  Python orders two naive values, or two aware ones, by their
    position on the time line and refuses to order a naive value against
    an aware one. *)
Definition lt (a b : datetime) : result bool :=
  if Bool.eqb (aware a) (aware b)
  then Ok (instant a <? instant b)%Z
  else Raise compare_error.

(** [(a - b).days]: a [timedelta] is normalised so that its seconds and
    microseconds are not negative, hence the floor. *)
Definition sub_days (a b : datetime) : result Z :=
  if Bool.eqb (aware a) (aware b)
  then Ok ((instant a - instant b) / us_per_day)%Z
  else Raise "can't subtract offset-naive and offset-aware datetimes".

(** [sorted(l)] on datetimes.  Python's sort is stable and only ever asks
    [y < x]: its result is the one list any stable sort returns, and the
    call raises when a comparison does.  Written as an insertion sort. *)
Fixpoint insert (x : datetime) (l : list datetime) : result (list datetime) :=
  match l with
  | [] => Ok [x]
  | y :: l' =>
      do b <- lt y x;
      if b then (do r <- insert x l'; Ok (y :: r)) else Ok (x :: l)
  end.

Fixpoint sorted (l : list datetime) : result (list datetime) :=
  match l with
  | [] => Ok []
  | x :: l' => do r <- sorted l'; insert x r
  end.

(** All of [l] naive ([b = false]) or all of it aware ([b = true]). *)
Definition uniform (b : bool) (l : list datetime) : Prop :=
  Forall (fun d => aware d = b) l.

(** [a] is not after [b] on the time line. *)
Definition earlier (a b : datetime) : Prop := (instant a <= instant b)%Z.

(** The dates and the times of day a [datetime] can hold: the constructor
    refuses anything else. *)
Definition valid_date (d : datetime) : Prop :=
  (1 <= year d <= 9999 /\ 1 <= month d <= 12
   /\ 1 <= day d <= days_in_month (year d) (month d))%Z.


End Datetime.

(** ** The annotated document

    What spaCy hands to the extractors: tokens, entities, sentences and noun
    chunks.  Only the attributes the parser reads are kept. *)

Record Token : Type := mk_token {
  tok_text : string;   (* t.text *)
  pos_ : string;       (* t.pos_ *)
  lemma_ : string      (* t.lemma_ *)
}.

Record Span : Type := mk_span {
  text : string;       (* ent.text *)
  label_ : string;     (* ent.label_ *)
  root_dep_ : string   (* ent.root.dep_ *)
}.

Record Sent : Type := mk_sent {
  sent_text : string;      (* sent.text *)
  sent_ents : list Span    (* sent.ents *)
}.

Record Doc : Type := mk_doc {
  tokens : list Token;          (* iterating over doc *)
  ents : list Span;             (* doc.ents *)
  sents : list Sent;            (* doc.sents *)
  noun_chunks : list string     (* chunk.text for chunk in doc.noun_chunks *)
}.

(** What one call of [dateparser.parse] can do with a text: return a
    datetime, return [None], or raise. *)
Inductive parse_outcome : Type :=
| Parsed (d : datetime)
| NoDate
| ParseRaises.

(** How writing one output file goes: it works, [open] raises (nothing is
    created), or [open] works and an error comes up while the JSON text is
    written or flushed, after [reached] characters have reached the file. *)
Inductive write_outcome : Type :=
| Written
| OpenRaises (msg : string)
| DumpRaises (msg : string) (reached : nat).

Record Env : Type := mk_env {
  pdf_pages : string -> result (list string);  (* pdfplumber: the pages' texts *)
  nlp : string -> result Doc;                  (* the spaCy pipeline *)
  date_parse : nat -> string -> parse_outcome; (* dateparser.parse, call by call *)
  fs_write : string -> write_outcome           (* the file system, per input file name *)
}.

(** [list(set(xs))]: the elements of [xs], each once.  Python leaves the
    order open; no statement below depends on the order [elements] picks. *)
Definition list_set (xs : list string) : list string :=
  elements (list_to_set xs : gset string).

(** ** Field extractors working on the annotated document *)

Definition in_list (x : string) (l : list string) : bool :=
  existsb (String.eqb x) l.

Section Extractors.

Variable env : Env.

(** The loop that fills [dates].  [dateparser.parse] reads the clock each
    time it is called ("today", "2 years ago"), so what it returns depends
    on the call as well as on the text: [calls] counts the calls made so
    far. *)
Fixpoint collect_dates_from (calls : nat) (es : list Span) : list (option datetime) :=
  match es with
  | [] => []
  | ent :: rest =>
      if String.eqb (label_ ent) "DATE" && (4 <? String.length (text ent))%nat
      then match date_parse env calls (text ent) with
           | Parsed d => Some d :: collect_dates_from (S calls) rest
           | NoDate => None :: collect_dates_from (S calls) rest
           | ParseRaises => collect_dates_from (S calls) rest
           end
      else collect_dates_from calls rest
  end.

Definition collect_dates (es : list Span) : list (option datetime) :=
  collect_dates_from 0 es.

(** [[d for d in dates if d]]: a datetime is always true, [None] never. *)
Definition only_dates (dates : list (option datetime)) : list datetime :=
  omap id dates.

Definition _calculate_experience (doc : Doc) : result Z :=
  let dates := collect_dates (ents doc) in
  if (List.length dates <? 2)%nat then Ok 0%Z
  else
    do dates <- Datetime.sorted (only_dates dates);
    match dates with
    | d0 :: _ =>
        do days <- Datetime.sub_days (List.last dates d0) d0;
        Ok (days / 365)%Z
    | [] => Ok 0%Z
    end.

(** The dates of the document that take part in the calculation: the DATE
    entities longer than 4 characters that the parser turned into a date. *)
Definition valid_dates (doc : Doc) : list datetime :=
  only_dates (collect_dates (ents doc)).

Definition is_build_verb (t : Token) : bool :=
  String.eqb (pos_ t) "VERB" && in_list (lemma_ t) ["develop"; "design"; "build"].

Definition chunk_is_skill (doc : Doc) (chunk : string) : bool :=
  existsb (fun t => Py.contains (Py.lower (tok_text t)) (Py.lower chunk))
          (List.filter is_build_verb (tokens doc)).

Definition with_label (l : string) (es : list Span) : list string :=
  List.map text (List.filter (fun ent => String.eqb (label_ ent) l) es).

Definition _extract_skills (doc : Doc) : list string :=
  let skills : gset string := list_to_set (List.filter (chunk_is_skill doc) (noun_chunks doc)) in
  let skills := skills ∪ list_to_set (with_label "TECH" (ents doc)) in
  elements skills.

Definition company_of (sentence : string) : string :=
  Py.strip (List.hd EmptyString (Py.split "(" (List.last (Py.split " at " sentence) EmptyString))).

Definition has_org (sent : Sent) : bool :=
  existsb (fun ent => String.eqb (label_ ent) "ORG") (sent_ents sent).

(** One turn of the loop of [_extract_companies]; the state is
    [(current_company, companies)]. *)
Definition companies_step (st : option string * list string) (sent : Sent)
  : option string * list string :=
  let '(current_company, companies) := st in
  let current_company :=
    if Py.contains " at " (sent_text sent)
    then Some (company_of (sent_text sent))
    else current_company in
  match current_company with
  | Some c =>
      if Py.truthy c && has_org sent
      then (current_company, (companies ++ [c])%list)
      else (current_company, companies)
  | None => (current_company, companies)
  end.

Definition companies_loop (ss : list Sent) : option string * list string :=
  List.fold_left companies_step ss (None, []).

Definition _extract_companies (doc : Doc) : list string :=
  list_set (snd (companies_loop (sents doc))).

Definition is_position (ent : Span) : bool :=
  String.eqb (label_ ent) "TITLE"
  || (String.eqb (root_dep_ ent) "attr" && Py.contains "experience" (Py.lower (text ent))).

Definition _extract_positions (doc : Doc) : list string :=
  list_set (List.map text (List.filter is_position (ents doc))).

Definition _extract_certifications (doc : Doc) : list string :=
  list_set (with_label "CERTIFICATION" (ents doc)).

Definition _extract_tools (doc : Doc) : list string :=
  list_set (with_label "TOOL" (ents doc)).

End Extractors.

(** [piece], followed by " at ", ends at the first " at " a scan from its
    left meets: no occurrence begins inside [piece]. *)
Definition closed_by_at (piece : string) : Prop :=
  Py.contains " at " (piece ++ " at") = false.

(** ** The output record and [parse_resume] *)

Record ResumeRecord : Type := mk_record {
  summary : string;
  total_experience : Z;
  skills : list string;
  companies : list string;
  positions : list string;
  education : list string;
  certifications : list string;
  tools : list string
}.

Definition _extract_text (env : Env) (pdf_path : string) : result string :=
  do pages <- pdf_pages env pdf_path;
  Ok (Py.join nl pages).

Definition parse_resume (env : Env) (pdf_path : string) : result ResumeRecord :=
  do text <- _extract_text env pdf_path;
  do doc <- nlp env text;
  do experience <- _calculate_experience env doc;
  Ok {| summary := _extract_summary text;
        total_experience := experience;
        skills := _extract_skills doc;
        companies := _extract_companies doc;
        positions := _extract_positions doc;
        education := _extract_education text;
        certifications := _extract_certifications doc;
        tools := _extract_tools doc |}.

(** ** Paths *)

Module Path.

(** [s.rfind(c)]: the index of the last [c] in [s], or -1. *)
Fixpoint rfind_go (c : ascii) (s : string) (i : Z) (found : Z) : Z :=
  match s with
  | EmptyString => found
  | String x s' => rfind_go c s' (i + 1)%Z (if Ascii.eqb x c then i else found)
  end.

Definition rfind (c : ascii) (s : string) : Z := rfind_go c s 0%Z (-1)%Z.

Fixpoint has_non_dot (s : string) : bool :=
  match s with
  | EmptyString => false
  | String x s' => negb (Ascii.eqb x ".") || has_non_dot s'
  end.

(** [os.path.splitext(p)[0]]: [p] without its extension; the dots that
    begin the file name do not start an extension. *)
Definition splitext_root (p : string) : string :=
  let sepIndex := rfind "/" p in
  let dotIndex := rfind "." p in
  if (sepIndex <? dotIndex)%Z
  then
    if has_non_dot (String.substring (Z.to_nat (sepIndex + 1))
                                     (Z.to_nat (dotIndex - sepIndex - 1)) p)
    then Py.take (Z.to_nat dotIndex) p
    else p
  else p.

(** [os.path.join(a, b)] *)
Definition join (a b : string) : string :=
  if Py.startswith b "/" then b
  else if negb (Py.truthy a) || Py.endswith a "/" then a ++ b
  else a ++ "/" ++ b.

End Path.

(** ** The batch driver

    The driver's world: the files it can write, path to content, and what it
    has printed.  [json_text] stands for [json.dumps(result, indent=2)]. *)

Record World : Type := mk_world {
  fs : gmap string string;
  stdout : list string
}.

Section Driver.

Variable env : Env.
Variable json_text : ResumeRecord -> string.
Variables input_dir output_dir : string.

Definition print (line : string) (w : World) : World :=
  {| fs := fs w; stdout := (stdout w ++ [line])%list |}.

Definition error_line (file e : string) : string :=
  "Error processing " ++ file ++ ": " ++ e.

Definition output_path (file : string) : string :=
  Path.join output_dir (Path.splitext_root file ++ ".json").

(** [file.lower().endswith('.pdf')] *)
Definition is_pdf (file : string) : bool := Py.endswith (Py.lower file) ".pdf".

(** The body of the [for] loop.  [open(output_file, 'w')] creates the file,
    or empties the one that is there, before anything is written; when the
    dump then fails the file stays, holding what had reached it. *)
Definition process_file (w : World) (file : string) : World :=
  if is_pdf file
  then
    match parse_resume env (Path.join input_dir file) with
    | Raise e => print (error_line file e) w
    | Ok result =>
        let output_file := output_path file in
        match fs_write env file with
        | Written =>
            {| fs := <[output_file := json_text result]> (fs w); stdout := stdout w |}
        | OpenRaises e => print (error_line file e) w
        | DumpRaises e reached =>
            print (error_line file e)
              {| fs := <[output_file := Py.take reached (json_text result)]> (fs w);
                 stdout := stdout w |}
        end
    end
  else w.

(** [process_resumes], given what [os.listdir(input_dir)] returned.  The
    output directory is made before the loop; [tqdm] only draws a progress
    bar. *)
Definition process_resumes (listing : list string) (w : World) : World :=
  List.fold_left process_file listing w.

(** The exception that reaches the [except] clause while [file] is
    handled, if one does: its message. *)
Definition failure (file : string) : option string :=
  match parse_resume env (Path.join input_dir file) with
  | Raise e => Some e
  | Ok _ =>
      match fs_write env file with
      | Written => None
      | OpenRaises e => Some e
      | DumpRaises e _ => Some e
      end
  end.


(** What the driver prints for [file]. *)
Definition printed (file : string) : list string :=
  if is_pdf file
  then match failure file with
       | Some e => [error_line file e]
       | None => []
       end
  else [].

End Driver.

(** ** [save_report] from utils.py *)

Module Report.

Definition digit (n : Z) : ascii := ascii_of_N (48 + Z.to_N (n mod 10)).

(** [n] in decimal, padded with zeros to [width] digits. *)
Fixpoint dec (width : nat) (n : Z) : string :=
  match width with
  | O => EmptyString
  | S w => dec w (n / 10) ++ String (digit n) EmptyString
  end.

(** [%Y] of [strftime]: the C library prints the year as a plain decimal
    number, so a year below 1000 comes out with fewer than four digits. *)
Definition strftime_Y (y : Z) : string :=
  if (y <? 10)%Z then dec 1 y
  else if (y <? 100)%Z then dec 2 y
  else if (y <? 1000)%Z then dec 3 y
  else dec 4 y.

(** [now.strftime('%Y%m%d')] *)
Definition strftime_Ymd (now : datetime) : string :=
  strftime_Y (year now) ++ dec 2 (month now) ++ dec 2 (day now).

(** [str(now)]: ISO format with a space between date and time, the year on
    four digits; the microseconds are left out when they are zero.
    [datetime.now()] is naive, so no offset is printed. *)
Definition str (now : datetime) : string :=
  dec 4 (year now) ++ "-" ++ dec 2 (month now) ++ "-" ++ dec 2 (day now)
  ++ " " ++ dec 2 (hour now) ++ ":" ++ dec 2 (minute now) ++ ":" ++ dec 2 (second now)
  ++ (if (microsecond now =? 0)%Z then EmptyString
      else "." ++ dec 6 (microsecond now)).


Definition report_path (report_dir : string) (now : datetime) : string :=
  Path.join report_dir ("report_" ++ strftime_Ymd now ++ ".log").

Definition report_line (now : datetime) (filename error : option string) : string :=
  match filename, error with
  | Some f, Some e =>
      if Py.truthy f && Py.truthy e
      then "[" ++ str now ++ "] Error processing " ++ f ++ ": " ++ e ++ nl
      else "[" ++ str now ++ "] Processing started" ++ nl
  | _, _ => "[" ++ str now ++ "] Processing started" ++ nl
  end.

(** How [open(report_path, 'a')] and the [write] go: the line is added;
    [open] raises and nothing is written (nothing creates [report_dir], so
    a missing directory gives FileNotFoundError); or the file is opened and
    an error comes up while the line is written or flushed, after [reached]
    characters have reached the file. *)
Inductive append_outcome : Type :=
| Appended
| OpenFails (msg : string)
| WriteFails (msg : string) (reached : nat).

(** A file opened with mode 'a': the text goes after what the file holds,
    and a file that is not there is created empty. *)
Definition append (path line : string) (files : gmap string string)
  : gmap string string :=
  <[path := default EmptyString (files !! path) ++ line]> files.

(** [save_report(report_dir, filename, error)]: the files after the call,
    and how the call ends.  The clock is read twice: [now1] names the
    file, [now2] stamps the line.  [outcome] is how the file system answers
    this call. *)
Definition save_report (outcome : append_outcome) (now1 now2 : datetime)
           (report_dir : string) (filename error : option string)
           (files : gmap string string)
  : gmap string string * result unit :=
  let report_path := report_path report_dir now1 in
  let line := report_line now2 filename error in
  match outcome with
  | Appended => (append report_path line files, Ok tt)
  | OpenFails e => (files, Raise e)
  | WriteFails e reached => (append report_path (Py.take reached line) files, Raise e)
  end.

End Report.

(** ** A direct reading of the two patterns

    What [summary_re] and [education_re] do, written as plain scans of the
    text; the theorems below show that the backtracking matcher computes
    exactly this. *)

Module Scan.

(** [s] begins with the word [w], letter case aside: what is left of [s]. *)
Fixpoint after_word (w s : string) : option string :=
  match w, s with
  | EmptyString, _ => Some s
  | String a w', String b s' =>
      if Ascii.eqb (Py.lower_char b) (Py.lower_char a) then after_word w' s' else None
  | String _ _, EmptyString => None
  end.

(** The first place in [s] where one of the words [ws] begins: the text
    after the word. *)
Fixpoint first_of (ws : list string) (s : string) : option string :=
  match ws with
  | [] => None
  | w :: ws' =>
      match after_word w s with
      | Some rest => Some rest
      | None => first_of ws' s
      end
  end.

Fixpoint find_word (ws : list string) (s : string) : option string :=
  match first_of ws s with
  | Some rest => Some rest
  | None =>
      match s with
      | String _ s' => find_word ws s'
      | EmptyString => None
      end
  end.

Definition skip_colon (s : string) : string :=
  match s with
  | String c s' => if Ascii.eqb ":" c then s' else s
  | EmptyString => s
  end.

Fixpoint skip_word_chars (s : string) : string :=
  match s with
  | String c s' => if Py.isword c then skip_word_chars s' else s
  | EmptyString => EmptyString
  end.

(** [s] begins with a newline, one or more word characters and a colon:
    the next line looks like a new "Label:" section. *)
Definition label_line_ahead (s : string) : bool :=
  match s with
  | String c (String d s') =>
      Ascii.eqb "010" c && Py.isword d && Py.startswith (skip_word_chars s') ":"
  | _ => false
  end.

Definition boundary (s : string) : bool := label_line_ahead s || Re.at_end s.

(** The text of [s] before its first boundary. *)
Fixpoint upto_boundary (s : string) : string :=
  if boundary s then EmptyString
  else match s with
       | String c s' => String c (upto_boundary s')
       | EmptyString => EmptyString
       end.

Definition summary (text : string) : string :=
  match find_word ["summary"; "objective"] text with
  | Some rest => Py.strip (upto_boundary (Py.lstrip (skip_colon rest)))
  | None => EmptyString
  end.

Definition education (text : string) : list string :=
  match find_word ["education"] text with
  | Some rest =>
      List.filter Py.truthy
        (List.map Py.strip (Py.split nl (upto_boundary (skip_colon rest))))
  | None => []
  end.

End Scan.

(** ** The summary rule and the companies rule in the specification's words *)

Module Spec.

(** A line beginning "summary:" or "objective:", letter case aside. *)
Definition summary_line (line : string) : bool :=
  Py.startswith (Py.lower line) "summary:" || Py.startswith (Py.lower line) "objective:".

(** The text has such a line. *)
Definition has_summary_line (text : string) : bool :=
  existsb summary_line (Py.split nl text).

(** [s] without its first [n] characters. *)
Fixpoint drop (n : nat) (s : string) : string :=
  match n, s with
  | S n', String _ s' => drop n' s'
  | _, _ => s
  end.

(** The text after the last occurrence of [sub] in [s], wherever the
    occurrence lies; [None] when [sub] does not occur. *)
Fixpoint after_last (sub s : string) : option string :=
  match s with
  | EmptyString => if Py.startswith s sub then Some EmptyString else None
  | String _ s' =>
      match after_last sub s' with
      | Some rest => Some rest
      | None => if Py.startswith s sub then Some (drop (String.length sub) s) else None
      end
  end.

(** The text before the first "(". *)
Fixpoint before_paren (s : string) : string :=
  match s with
  | EmptyString => EmptyString
  | String c s' => if Ascii.eqb c "(" then EmptyString else String c (before_paren s')
  end.

(** The companies rule in the specification's words: a sentence with
    " at " sets the current company to the text after the last occurrence
    of " at ", truncated before "(" and trimmed; the current company is
    appended whenever the sentence holds an ORG entity. *)
Definition companies_step (st : option string * list string) (sent : Sent)
  : option string * list string :=
  let '(current_company, companies) := st in
  let current_company :=
    match after_last " at " (sent_text sent) with
    | Some rest => Some (Py.strip (before_paren rest))
    | None => current_company
    end in
  match current_company with
  | Some c =>
      if has_org sent
      then (current_company, (companies ++ [c])%list)
      else (current_company, companies)
  | None => (current_company, companies)
  end.

Definition companies (doc : Doc) : list string :=
  list_set (snd (List.fold_left companies_step (sents doc) (None, []))).

End Spec.

(** ** The years between the dates kept

    What [_calculate_experience] does once the dates are collected and the
    [None]s are filtered out. *)
Definition years_between (dates : list datetime) : result Z :=
  do dates <- Datetime.sorted dates;
  match dates with
  | d0 :: _ =>
      do days <- Datetime.sub_days (List.last dates d0) d0;
      Ok (days / 365)%Z
  | [] => Ok 0%Z
  end.

(** ** [load_config] from utils.py *)

Module Utils.

(** [s == '/' * len(s)] *)
Fixpoint all_slashes (s : string) : bool :=
  match s with
  | EmptyString => true
  | String c s' => Ascii.eqb c "/" && all_slashes s'
  end.

(** [s.rstrip('/')] *)
Fixpoint rstrip_slashes (s : string) : string :=
  match s with
  | EmptyString => EmptyString
  | String c s' =>
      match rstrip_slashes s' with
      | EmptyString => if Ascii.eqb c "/" then EmptyString else String c EmptyString
      | r => String c r
      end
  end.

(** [os.path.dirname(p)]: [p] up to its last slash; the slashes that end
    this head are dropped unless it is made of slashes only. *)
Definition dirname (p : string) : string :=
  let i := (Path.rfind "/" p + 1)%Z in
  let head := Py.take (Z.to_nat i) p in
  if Py.truthy head && negb (all_slashes head)
  then rstrip_slashes head
  else head.

(** The path [load_config] opens; [this_file] is
    [os.path.abspath(__file__)]. *)
Definition config_path (this_file : string) : string :=
  Path.join (Path.join (dirname (dirname this_file)) "input") "config.json".

(** [load_config()].  [read_file] stands for opening a path and reading it
    all (the text, or what [open] raises), [json_loads] for the JSON
    decoder. *)
Definition load_config {Config : Type}
           (read_file : string -> result string)
           (json_loads : string -> result Config)
           (this_file : string) : result Config :=
  do content <- read_file (config_path this_file);
  json_loads content.

(** The absolute path with the components [comps]: "/a/b/c". *)
Fixpoint rooted (comps : list string) : string :=
  match comps with
  | [] => EmptyString
  | c :: cs => "/" ++ c ++ rooted cs
  end.

(** A path component: not empty, no slash in it. *)
Definition component (c : string) : Prop :=
  c <> EmptyString /\ Py.contains "/" c = false.

End Utils.

(** ** Several calls of [save_report] *)

Record report_call : Type := mk_call {
  call_outcome : Report.append_outcome;  (* how the file system answers *)
  call_now1 : datetime;            (* the clock when the file is named *)
  call_now2 : datetime;            (* the clock when the line is stamped *)
  call_dir : string;               (* report_dir *)
  call_filename : option string;   (* filename *)
  call_error : option string       (* error *)
}.

Definition save_report_call (files : gmap string string) (c : report_call)
  : gmap string string :=
  fst (Report.save_report (call_outcome c) (call_now1 c) (call_now2 c) (call_dir c)
                          (call_filename c) (call_error c) files).

(** The files after the calls [calls], made one after the other, whether
    or not one of them raised. *)
Definition save_reports (calls : list report_call) (files : gmap string string)
  : gmap string string :=
  List.fold_left save_report_call calls files.

(** The call [c] names the file [path]. *)
Definition targets (path : string) (c : report_call) : bool :=
  String.eqb (Report.report_path (call_dir c) (call_now1 c)) path.

(** The call [c] got past [open]. *)
Definition opened (c : report_call) : bool :=
  match call_outcome c with
  | Report.OpenFails _ => false
  | _ => true
  end.

(** What the call [c] adds to the file it names. *)
Definition written (c : report_call) : string :=
  let line := Report.report_line (call_now2 c) (call_filename c) (call_error c) in
  match call_outcome c with
  | Report.Appended => line
  | Report.OpenFails _ => EmptyString
  | Report.WriteFails _ reached => Py.take reached line
  end.

(** What the calls [calls] write to the file [path], call after call. *)
Fixpoint lines_for (path : string) (calls : list report_call) : string :=
  match calls with
  | [] => EmptyString
  | c :: rest =>
      (if targets path c then written c else EmptyString) ++ lines_for path rest
  end.

(** ** Sample inputs *)

Module Sample.

Definition python_twice : Doc :=
  mk_doc [mk_token "built" "VERB" "build"]
         [mk_span "Python" "TECH" "pobj"; mk_span "Python" "TECH" "conj";
          mk_span "Docker" "TOOL" "conj"; mk_span "Docker" "TOOL" "pobj"]
         [mk_sent "I built tools at Acme Corp (NYC)" [mk_span "Acme Corp" "ORG" "pobj"];
          mk_sent "Acme Corp uses Python and Docker." [mk_span "Acme Corp" "ORG" "nsubj"]]
         ["tools"; "Acme Corp"; "Python"].

(** Every file holds two pages; the education section names two degrees of
    the same kind. *)
Definition degrees : list string :=
  ["Education:" ++ nl ++ "Bachelor of Science" ++ nl ++ "Leeds";
   "Bachelor of Science" ++ nl ++ "York"].

Definition two_pages : Env :=
  {| pdf_pages := fun _ => Ok degrees;
     nlp := fun _ => Ok python_twice;
     date_parse := fun _ _ => NoDate;
     fs_write := fun _ => Written |}.

Definition json (r : ResumeRecord) : string :=
  "{ summary: " ++ summary r ++ " }".



(** What dateparser makes of a few texts, none of which refers to the day
    of the call: a month and a year give a naive datetime, a time that
    names its zone (here EST, five hours behind UTC) an aware one. *)
Definition january_2015 : datetime := mk_datetime 2015 1 3 0 0 0 0 None.
Definition june_2021 : datetime := mk_datetime 2021 6 3 0 0 0 0 None.
Definition january_2012_est : datetime :=
  mk_datetime 2012 1 12 22 0 0 0 (Some (-18000)%Z).

Definition dateparser (s : string) : parse_outcome :=
  if String.eqb s "January 2015" then Parsed january_2015
  else if String.eqb s "June 2021" then Parsed june_2021
  else if String.eqb s "January 12, 2012 10:00 PM EST" then Parsed january_2012_est
  else if String.eqb s "Present" then ParseRaises
  else NoDate.

Definition dated : Env :=
  {| pdf_pages := fun _ => Ok ["Jan 2015 - June 2021"];
     nlp := fun _ => Ok python_twice;
     date_parse := fun _ => dateparser;
     fs_write := fun _ => Written |}.

Definition date (s : string) : Span := mk_span s "DATE" "pobj".

Definition naive_dates : Doc :=
  mk_doc [] [date "June 2021"; date "a while"; date "Present"; date "2015";
             date "January 2015"] [] [].

Definition naive_and_aware : Doc :=
  mk_doc [] [date "January 2015"; date "January 12, 2012 10:00 PM EST"] [] [].

Definition two_naive_one_aware : Doc :=
  mk_doc [] [date "January 2015"; date "June 2021"; date "January 12, 2012 10:00 PM EST"] [] [].

Definition empty_world : World := {| fs := ∅; stdout := [] |}.

(** What [open] raises when the directory of the log file is missing. *)
Definition no_such_directory : string :=
  "[Errno 2] No such file or directory: 'reports/report_20261103.log'".

(** 2 January 999. *)
Definition new_year_999 : datetime := mk_datetime 999 1 2 0 0 0 0 None.

(** 3 November 2026, 09:50:07, and a little later. *)
Definition morning : datetime := mk_datetime 2026 11 3 9 50 7 0 None.
Definition morning_later : datetime := mk_datetime 2026 11 3 9 50 7 125000 None.

End Sample.

(** ** More sample inputs *)

Module Cases.

(** A document annotated with the dates of [Sample.naive_dates]. *)
Definition dated_cv : Env :=
  {| pdf_pages := fun _ => Ok ["Acme Corp, January 2015 - June 2021"];
     nlp := fun _ => Ok Sample.naive_dates;
     date_parse := fun _ => Sample.dateparser;
     fs_write := fun _ => Written |}.

Definition two_dates : Doc :=
  mk_doc [] [Sample.date "June 2021"; Sample.date "January 2015"] [] [].

Definition two_dates_swapped : Doc :=
  mk_doc [] [Sample.date "January 2015"; Sample.date "June 2021"] [] [].

(** The pipeline refuses a text. *)
Definition too_long : Env :=
  {| pdf_pages := fun _ => Ok ["a very long text"];
     nlp := fun _ => Raise "[E088] Text of length 1000001 exceeds maximum of 1000000.";
     date_parse := fun _ _ => NoDate;
     fs_write := fun _ => Written |}.

End Cases.

(** * Theorems *)

(** ** The definitions on a few inputs *)

Example split_at :
  Py.split " at " "Intern at Initech, then lead at Acme Corp (NYC)"
  = ["Intern"; "Initech, then lead"; "Acme Corp (NYC)"].
Proof. reflexivity. Qed.

Example split_at_overlapping :
  Py.split " at " "I was at at Acme" = ["I was"; "at Acme"].
Proof. reflexivity. Qed.

Example company_of_example : company_of "I worked at Acme Corp (NYC)" = "Acme Corp".
Proof. reflexivity. Qed.

Example strip_example :
  Py.strip (" " ++ nl ++ "BS Computer Science " ++ nl) = "BS Computer Science".
Proof. reflexivity. Qed.

Example summary_stops_at_label :
  _extract_summary ("OBJECTIVE:  lead a team" ++ nl ++ "of five" ++ nl ++ "Skills: Java")
  = "lead a team" ++ nl ++ "of five".
Proof. vm_compute. reflexivity. Qed.

Example splitext_examples :
  Path.splitext_root "cv.final.PDF" = "cv.final"
  /\ Path.splitext_root ".pdf" = ".pdf"
  /\ Path.splitext_root "a/b.c/cv" = "a/b.c/cv".
Proof. repeat split; reflexivity. Qed.

Example output_path_example :
  output_path "output/processed" "Ann Lee.PDF" = "output/processed/Ann Lee.json".
Proof. reflexivity. Qed.

Example experience_example :
  _calculate_experience Sample.dated Sample.naive_dates = Ok 6%Z.
Proof. reflexivity. Qed.

(** One date and one [None]: the list has two entries, one date is left
    after the filter, and it is subtracted from itself. *)
Example experience_one_date_one_none :
  _calculate_experience Sample.dated
    (mk_doc [] [Sample.date "a while"; Sample.date "June 2021"] [] []) = Ok 0%Z.
Proof. reflexivity. Qed.

Example batch_example :
  process_resumes Sample.two_pages Sample.json "input/resumes" "output/processed"
    ["notes.txt"; "cv.pdf"] Sample.empty_world
  = {| fs := {[ "output/processed/cv.json" := "{ summary:  }" ]}; stdout := [] |}.
Proof. vm_compute. reflexivity. Qed.

(** ** Sets *)

Lemma list_set_NoDup (xs : list string) : List.NoDup (list_set xs).
Proof. unfold list_set. apply NoDup_ListNoDup, NoDup_elements. Qed.

Lemma list_set_In (xs : list string) (x : string) :
  In x (list_set xs) <-> In x xs.
Proof.
  unfold list_set.
  rewrite <- !list_elem_of_In, elem_of_elements, elem_of_list_to_set.
  reflexivity.
Qed.

Lemma list_set_nil : list_set [] = [].
Proof. reflexivity. Qed.

Lemma NoDup_singleton_eq (l : list string) (x : string) :
  List.NoDup l -> (forall y, In y l <-> y = x) -> l = [x].
Proof.
  intros Hnd Hin.
  destruct l as [|a l].
  - destruct (proj2 (Hin x) eq_refl).
  - assert (a = x) by (apply Hin; left; reflexivity). subst a.
    destruct l as [|b l]; [reflexivity|].
    assert (b = x) by (apply Hin; right; left; reflexivity). subst b.
    apply NoDup_cons_iff in Hnd as [Hnot _].
    exfalso. apply Hnot. left. reflexivity.
Qed.

Lemma with_label_In (l : string) (es : list Span) (x : string) :
  In x (with_label l es) <-> exists ent, In ent es /\ label_ ent = l /\ text ent = x.
Proof.
  unfold with_label. rewrite in_map_iff. split.
  - intros (ent & Htext & Hin). apply filter_In in Hin as [Hin Hl].
    apply String.eqb_eq in Hl. eauto.
  - intros (ent & Hin & Hl & Htext). exists ent. split; [exact Htext|].
    apply filter_In. split; [exact Hin|]. apply String.eqb_eq. exact Hl.
Qed.

Lemma skills_NoDup (doc : Doc) : List.NoDup (_extract_skills doc).
Proof. unfold _extract_skills. apply NoDup_ListNoDup, NoDup_elements. Qed.

Lemma skills_In (doc : Doc) (x : string) :
  In x (_extract_skills doc) <->
  (In x (noun_chunks doc) /\ chunk_is_skill doc x = true)
  \/ In x (with_label "TECH" (ents doc)).
Proof.
  unfold _extract_skills.
  rewrite <- list_elem_of_In, elem_of_elements, elem_of_union,
    !elem_of_list_to_set, !list_elem_of_In, filter_In.
  reflexivity.
Qed.

(** ** Entities by label *)

(** C8: the certifications are the texts of the CERTIFICATION entities, each
    once; the tools are the texts of the TOOL entities, each once; every
    text of a TECH entity is among the skills.  For the entities AWS (TECH),
    Certified Solutions (CERTIFICATION) and Docker (TOOL), whatever the rest
    of the document, the skills contain AWS, the certifications are
    [Certified Solutions] and the tools are [Docker]. *)
Theorem entities_by_label :
  (forall doc : Doc,
      List.NoDup (_extract_certifications doc)
      /\ (forall x, In x (_extract_certifications doc) <->
                    exists ent, In ent (ents doc)
                                /\ label_ ent = "CERTIFICATION" /\ text ent = x)
      /\ List.NoDup (_extract_tools doc)
      /\ (forall x, In x (_extract_tools doc) <->
                    exists ent, In ent (ents doc)
                                /\ label_ ent = "TOOL" /\ text ent = x)
      /\ (forall ent, In ent (ents doc) -> label_ ent = "TECH" ->
                      In (text ent) (_extract_skills doc)))
  /\ (forall toks ss chunks dep1 dep2 dep3,
        let doc := mk_doc toks
                     [mk_span "AWS" "TECH" dep1;
                      mk_span "Certified Solutions" "CERTIFICATION" dep2;
                      mk_span "Docker" "TOOL" dep3]
                     ss chunks in
        In "AWS" (_extract_skills doc)
        /\ _extract_certifications doc = ["Certified Solutions"]
        /\ _extract_tools doc = ["Docker"]).
Proof.
  split.
  - intros doc. unfold _extract_certifications, _extract_tools.
    split; [apply list_set_NoDup|].
    split; [intros x; rewrite list_set_In; apply with_label_In|].
    split; [apply list_set_NoDup|].
    split; [intros x; rewrite list_set_In; apply with_label_In|].
    intros ent Hin Hl. apply skills_In. right.
    apply with_label_In. eauto.
  - intros toks ss chunks dep1 dep2 dep3 doc. split; [|split].
    + apply skills_In. right. left. reflexivity.
    + vm_compute. reflexivity.
    + vm_compute. reflexivity.
Qed.

(** ** Companies *)

Lemma companies_loop_snoc (pre : list Sent) (sent : Sent) :
  companies_loop (pre ++ [sent]) = companies_step (companies_loop pre) sent.
Proof. unfold companies_loop. rewrite fold_left_app. reflexivity. Qed.

Lemma companies_step_current (st : option string * list string) (sent : Sent) :
  fst (companies_step st sent) =
  if Py.contains " at " (sent_text sent)
  then Some (company_of (sent_text sent))
  else fst st.
Proof.
  destruct st as [cur acc]. unfold companies_step.
  destruct (Py.contains " at " (sent_text sent)); simpl.
  - destruct (Py.truthy _ && has_org sent); reflexivity.
  - destruct cur as [c|]; [|reflexivity].
    destruct (Py.truthy c && has_org sent); reflexivity.
Qed.

(** What one turn of the loop adds to [companies]. *)
Lemma companies_step_appended (st : option string * list string) (sent : Sent) :
  snd (companies_step st sent) =
  match fst (companies_step st sent) with
  | Some c => if Py.truthy c && has_org sent then (snd st ++ [c])%list else snd st
  | None => snd st
  end.
Proof.
  destruct st as [cur acc]. unfold companies_step.
  destruct (Py.contains " at " (sent_text sent)); simpl.
  - destruct (Py.truthy _ && has_org sent) eqn:E; simpl; rewrite E; reflexivity.
  - destruct cur as [c|]; [|reflexivity].
    destruct (Py.truthy c && has_org sent) eqn:E; simpl; rewrite E; reflexivity.
Qed.

Lemma truthy_nonempty (s : string) : Py.truthy s = true <-> s <> EmptyString.
Proof. destruct s; simpl; split; congruence. Qed.

Lemma snoc_split {A : Type} (l pre post : list A) (x s : A) :
  (l ++ [x] = pre ++ s :: post)%list ->
  (post = [] /\ l = pre /\ x = s)
  \/ exists post', (post = post' ++ [x] /\ l = pre ++ s :: post')%list.
Proof.
  intros H.
  destruct (exists_last (l := s :: post)) as (body & y & Hb); [discriminate|].
  destruct post as [|p post].
  - left. change (pre ++ [s])%list with (pre ++ [s])%list in H.
    apply app_inj_tail in H as [-> ->]. repeat split; reflexivity.
  - right.
    destruct (exists_last (l := p :: post)) as (post' & z & Hp); [discriminate|].
    rewrite Hp in H.
    change (pre ++ s :: (post' ++ [z]))%list with (pre ++ (s :: post') ++ [z])%list in H.
    rewrite app_assoc in H.
    apply app_inj_tail in H as [-> ->].
    exists post'. split; [exact Hp | reflexivity].
Qed.

(** A company is collected exactly when some sentence has an ORG entity
    while [current_company], as it stands after that sentence's own update,
    is that company and is not empty. *)
Lemma companies_loop_In (ss : list Sent) (c : string) :
  In c (snd (companies_loop ss)) <->
  exists pre sent post,
    ss = (pre ++ sent :: post)%list
    /\ has_org sent = true
    /\ fst (companies_loop (pre ++ [sent])) = Some c
    /\ c <> EmptyString.
Proof.
  induction ss as [|x l IH] using rev_ind.
  - simpl. split; [intros []|].
    intros (pre & sent & post & H & _). destruct pre; discriminate.
  - rewrite companies_loop_snoc, companies_step_appended.
    split.
    + intros Hin.
      assert (Hcases :
        In c (snd (companies_loop l))
        \/ (fst (companies_step (companies_loop l) x) = Some c
            /\ Py.truthy c = true /\ has_org x = true)).
      { destruct (fst (companies_step (companies_loop l) x)) as [c'|] eqn:Hc;
          [|left; exact Hin].
        destruct (Py.truthy c' && has_org x) eqn:Hb; [|left; exact Hin].
        apply in_app_or in Hin as [Hin|Hin]; [left; exact Hin|].
        destruct Hin as [<-|[]]. apply andb_prop in Hb as [Ht Ho].
        right. repeat split; assumption. }
      destruct Hcases as [Hold | (Hc & Ht & Ho)].
      * apply IH in Hold as (pre & sent & post & -> & Ho & Hc & Hne).
        exists pre, sent, (post ++ [x])%list.
        rewrite <- app_assoc. repeat split; assumption.
      * exists l, x, []. rewrite companies_loop_snoc.
        repeat split; try assumption. apply truthy_nonempty. exact Ht.
    + intros (pre & sent & post & Heq & Ho & Hc & Hne).
      apply snoc_split in Heq as [(-> & -> & ->) | (post' & -> & ->)].
      * rewrite companies_loop_snoc in Hc. rewrite Hc.
        apply truthy_nonempty in Hne. rewrite Hne, Ho. simpl.
        apply in_or_app. right. left. reflexivity.
      * assert (In c (snd (companies_loop (pre ++ sent :: post')))) as Hold.
        { apply IH. exists pre, sent, post'. repeat split; assumption. }
        destruct (fst (companies_step _ x)) as [c'|]; [|exact Hold].
        destruct (Py.truthy c' && has_org x); [|exact Hold].
        apply in_or_app. left. exact Hold.
Qed.

Lemma companies_loop_no_at (ss : list Sent) :
  Forall (fun sent => Py.contains " at " (sent_text sent) = false) ss ->
  companies_loop ss = (None, []).
Proof.
  induction ss as [|x l IH] using rev_ind; [reflexivity|].
  intros H. apply Forall_app in H as [Hl Hx].
  rewrite companies_loop_snoc, (IH Hl).
  apply Forall_inv in Hx. unfold companies_step. rewrite Hx. reflexivity.
Qed.

(** ** Splitting *)

Lemma append_cons (c : ascii) (s t : string) : String c s ++ t = String c (s ++ t).
Proof. reflexivity. Qed.

Lemma append_nil_l (s : string) : EmptyString ++ s = s.
Proof. reflexivity. Qed.

Lemma rev_cons (c : ascii) (s : string) :
  Py.rev (String c s) = Py.rev s ++ String c EmptyString.
Proof. reflexivity. Qed.

Lemma append_nil_r (s : string) : s ++ EmptyString = s.
Proof.
  induction s as [|c s IH]; [reflexivity|]. rewrite append_cons, IH. reflexivity.
Qed.

Lemma append_assoc (a b c : string) : (a ++ b) ++ c = a ++ b ++ c.
Proof.
  induction a as [|x a IH]; [reflexivity|]. rewrite !append_cons, IH. reflexivity.
Qed.

Lemma length_append (a b : string) :
  String.length (a ++ b) = (String.length a + String.length b)%nat.
Proof.
  induction a as [|x a IH]; [reflexivity|]. rewrite append_cons. simpl.
  rewrite IH. reflexivity.
Qed.

Lemma startswith_iff (s p : string) :
  Py.startswith s p = true <-> exists r, s = p ++ r.
Proof.
  revert s. induction p as [|a p IH]; intros s; simpl.
  - split; [intros _; exists s; reflexivity | reflexivity].
  - destruct s as [|b s].
    + split; [discriminate | intros [r H]; discriminate].
    + rewrite andb_true_iff, Ascii.eqb_eq, IH. split.
      * intros [-> [r ->]]. exists r. reflexivity.
      * intros [r H]. injection H as -> ->. split; [reflexivity | eauto].
Qed.

Lemma startswith_append (a b p : string) :
  Py.startswith a p = true -> Py.startswith (a ++ b) p = true.
Proof.
  intros H. apply startswith_iff in H as [r ->].
  apply startswith_iff. exists (r ++ b). apply append_assoc.
Qed.

Lemma contains_cons (sub : string) (c : ascii) (s : string) :
  Py.contains sub (String c s) = Py.startswith (String c s) sub || Py.contains sub s.
Proof. reflexivity. Qed.

Lemma split_go_skip (sep x rest cur : string) :
  Py.split_go sep (String.length x) cur (x ++ rest) = Py.split_go sep 0 cur rest.
Proof.
  induction x as [|c x IH]; simpl; [destruct rest; reflexivity | exact IH].
Qed.

Lemma split_go_found (a : ascii) (sep' rest cur : string) :
  Py.split_go (String a sep') 0 cur (String a sep' ++ rest) =
  Py.rev cur :: Py.split_go (String a sep') 0 EmptyString rest.
Proof.
  change (String a sep' ++ rest) with (String a (sep' ++ rest)).
  cbn [Py.split_go].
  assert (Py.startswith (String a (sep' ++ rest)) (String a sep') = true) as ->.
  { apply startswith_iff. exists rest. reflexivity. }
  f_equal.
  replace (String.length (String a sep') - 1)%nat with (String.length sep')
    by (simpl; lia).
  apply split_go_skip.
Qed.

Lemma split_go_nonempty (sep : string) (skip : nat) (cur s : string) :
  Py.split_go sep skip cur s <> [].
Proof.
  revert skip cur. induction s as [|c s IH]; intros skip cur; simpl; [discriminate|].
  destruct skip; [|apply IH].
  destruct (Py.startswith (String c s) sep); [discriminate | apply IH].
Qed.

Lemma last_cons_nonempty {A : Type} (x d : A) (l : list A) :
  l <> [] -> List.last (x :: l) d = List.last l d.
Proof. destruct l; [congruence | reflexivity]. Qed.

Section Split.

Variable a : ascii.
Variable sep' : string.
Let sep : string := String a sep'.

(** The pieces of a text that has no occurrence of the separator, and the
    last piece of one that has. *)
Lemma split_go_last (n : nat) :
  forall s cur, (String.length s <= n)%nat ->
    (Py.contains sep s = false ->
     Py.split_go sep 0 cur s = [Py.rev cur ++ s])
    /\ (Py.contains sep s = true ->
        exists p piece,
          s = p ++ sep ++ piece
          /\ Py.contains sep piece = false
          /\ List.last (Py.split_go sep 0 cur s) EmptyString = piece).
Proof.
  induction n as [|n IH]; intros s cur Hlen.
  - destruct s; [|simpl in Hlen; lia]. split.
    + intros _. simpl. rewrite append_nil_r. reflexivity.
    + simpl. discriminate.
  - destruct s as [|c s].
    { split; [intros _; simpl; rewrite append_nil_r; reflexivity | simpl; discriminate]. }
    rewrite contains_cons.
    destruct (Py.startswith (String c s) sep) eqn:Hsw.
    + split; [discriminate|]. intros _.
      apply startswith_iff in Hsw as [rest Hrest]. rewrite Hrest.
      unfold sep. rewrite split_go_found. fold sep.
      rewrite last_cons_nonempty by apply split_go_nonempty.
      assert (String.length rest <= n)%nat as Hr.
      { apply (f_equal String.length) in Hrest. rewrite length_append in Hrest.
        simpl in Hrest, Hlen. lia. }
      destruct (IH rest EmptyString Hr) as [Hno Hyes].
      destruct (Py.contains sep rest) eqn:Hc.
      * destruct (Hyes eq_refl) as (p & piece & -> & Hp & Hl).
        exists (sep ++ p), piece. rewrite append_assoc. repeat split; assumption.
      * exists EmptyString, rest. rewrite (Hno eq_refl). repeat split. exact Hc.
    + simpl orb. cbn [Py.split_go]. rewrite Hsw.
      assert (String.length s <= n)%nat as Hs by (simpl in Hlen; lia).
      destruct (IH s (String c cur) Hs) as [Hno Hyes]. split.
      * intros Hc. rewrite (Hno Hc), rev_cons, append_assoc. reflexivity.
      * intros Hc. destruct (Hyes Hc) as (p & piece & -> & Hp & Hl).
        exists (String c p), piece. repeat split; assumption.
Qed.

(** The first piece is the text before the first occurrence. *)
Lemma split_go_first :
  forall s cur, exists h rest,
    s = h ++ rest
    /\ (rest = EmptyString \/ Py.startswith rest sep = true)
    /\ Py.contains sep h = false
    /\ List.hd EmptyString (Py.split_go sep 0 cur s) = Py.rev cur ++ h.
Proof.
  unfold sep. induction s as [|c s IH]; intros cur.
  - exists EmptyString, EmptyString. simpl. rewrite !append_nil_r.
    repeat split. left. reflexivity.
  - cbn [Py.split_go]. destruct (Py.startswith (String c s) (String a sep')) eqn:Hsw.
    + exists EmptyString, (String c s). simpl. rewrite !append_nil_r.
      repeat split. right. exact Hsw.
    + destruct (IH (String c cur)) as (h & rest & -> & Hrest & Hh & Hhd).
      exists (String c h), rest. repeat split; try assumption.
      * rewrite contains_cons, Hh, orb_false_r.
        destruct (Py.startswith (String c h) (String a sep')) eqn:E; [|reflexivity].
        apply (startswith_append _ rest) in E. rewrite append_cons in E. congruence.
      * rewrite Hhd, rev_cons, append_assoc. reflexivity.
Qed.

End Split.

(** [company_of]: the text after the last " at " that [split] finds, cut
    before the first "(" and stripped. *)
Lemma company_of_shape (s : string) :
  Py.contains " at " s = true ->
  exists before after name rest,
    s = before ++ " at " ++ after
    /\ Py.contains " at " after = false
    /\ after = name ++ rest
    /\ (rest = EmptyString \/ Py.startswith rest "(" = true)
    /\ Py.contains "(" name = false
    /\ company_of s = Py.strip name.
Proof.
  intros Hc. unfold company_of, Py.split.
  destruct (split_go_last " " "at " (String.length s) s EmptyString (le_n _)) as [_ Hyes].
  destruct (Hyes Hc) as (before & after & Hs & Hafter & ->).
  destruct (split_go_first "(" EmptyString after EmptyString)
    as (name & rest & Hn & Hrest & Hname & ->).
  exists before, after, name, rest. repeat split; assumption.
Qed.

Lemma companies_In (doc : Doc) (c : string) :
  In c (_extract_companies doc) <->
  exists pre sent post,
    sents doc = (pre ++ sent :: post)%list
    /\ has_org sent = true
    /\ fst (companies_loop (pre ++ [sent])) = Some c
    /\ c <> EmptyString.
Proof. unfold _extract_companies. rewrite list_set_In. apply companies_loop_In. Qed.

(** *** The pieces [split] finds at " at " *)

Lemma startswith_append_long (p a b : string) :
  (String.length p <= String.length a)%nat ->
  Py.startswith (a ++ b) p = Py.startswith a p.
Proof.
  revert a. induction p as [|c p IH]; intros a Hlen; [reflexivity|].
  destruct a as [|x a]; [simpl in Hlen; lia|].
  rewrite append_cons. cbn [Py.startswith]. rewrite IH; [reflexivity|].
  simpl in Hlen. lia.
Qed.

(** Whether an occurrence begins at the first character of a piece shows
    before the " at " that closes the piece is over. *)
Lemma startswith_at_piece (c : ascii) (p rest : string) :
  Py.startswith (String c (p ++ " at " ++ rest)) " at "
  = Py.startswith (String c (p ++ " at")) " at ".
Proof.
  change (String c (p ++ " at " ++ rest)) with (String c (p ++ " at" ++ " " ++ rest)).
  rewrite <- append_assoc, <- append_cons.
  apply startswith_append_long.
  rewrite <- append_cons, length_append. simpl. lia.
Qed.

Lemma closed_by_at_cons (c : ascii) (p rest : string) :
  closed_by_at (String c p) ->
  Py.startswith (String c (p ++ " at " ++ rest)) " at " = false /\ closed_by_at p.
Proof.
  unfold closed_by_at. rewrite append_cons, contains_cons.
  intros H. apply orb_false_elim in H as [Hsw Hc]. split; [|exact Hc].
  rewrite startswith_at_piece. exact Hsw.
Qed.

Lemma split_at_step (p rest cur : string) :
  closed_by_at p ->
  Py.split_go " at " 0 cur (p ++ " at " ++ rest)
  = (Py.rev cur ++ p) :: Py.split " at " rest.
Proof.
  revert cur. induction p as [|c p IH]; intros cur Hp.
  - rewrite append_nil_l, append_nil_r. apply split_go_found.
  - apply (closed_by_at_cons c p rest) in Hp as [Hsw Hp].
    rewrite append_cons. cbn [Py.split_go]. rewrite Hsw.
    rewrite (IH (String c cur) Hp), rev_cons, append_assoc. reflexivity.
Qed.

Lemma join_snoc_cons (sep p : string) (pieces : list string) (after : string) :
  Py.join sep (p :: pieces ++ [after]) = p ++ sep ++ Py.join sep (pieces ++ [after]).
Proof. destruct pieces; reflexivity. Qed.

(** [split] gives back the pieces of a text put together from pieces that
    are each closed by the " at " that follows, and a last piece without
    " at ". *)
Lemma split_at_join (pieces : list string) (after : string) :
  Forall closed_by_at pieces ->
  Py.contains " at " after = false ->
  Py.split " at " (Py.join " at " (pieces ++ [after])) = (pieces ++ [after])%list.
Proof.
  intros Hpieces Hafter. induction Hpieces as [|p pieces Hp _ IH].
  - cbn [app Py.join]. unfold Py.split.
    destruct (split_go_last " " "at " (String.length after) after EmptyString (le_n _))
      as [Hno _].
    rewrite (Hno Hafter). reflexivity.
  - change ((p :: pieces) ++ [after])%list with (p :: pieces ++ [after])%list.
    rewrite join_snoc_cons. unfold Py.split at 1.
    rewrite (split_at_step p _ EmptyString Hp), IH. reflexivity.
Qed.

Lemma at_first_occurrence (s : string) :
  Py.contains " at " s = true ->
  exists p rest, s = p ++ " at " ++ rest /\ closed_by_at p.
Proof.
  induction s as [|c s IH]; [discriminate|].
  rewrite contains_cons.
  destruct (Py.startswith (String c s) " at ") eqn:Hsw.
  - intros _. apply startswith_iff in Hsw as [rest ->].
    exists EmptyString, rest. split; reflexivity.
  - cbn [orb]. intros Hc. destruct (IH Hc) as (p & rest & -> & Hp).
    exists (String c p), rest. split; [reflexivity|].
    unfold closed_by_at in *. rewrite append_cons, contains_cons, Hp, orb_false_r.
    rewrite <- (startswith_at_piece c p rest). exact Hsw.
Qed.

(** Every text is put together in this way. *)
Lemma split_at_pieces (n : nat) :
  forall s, (String.length s <= n)%nat ->
    exists pieces after,
      s = Py.join " at " (pieces ++ [after])
      /\ Forall closed_by_at pieces
      /\ Py.contains " at " after = false.
Proof.
  induction n as [|n IH]; intros s Hlen.
  - destruct s; [|simpl in Hlen; lia].
    exists [], EmptyString. split; [reflexivity | split; [constructor | reflexivity]].
  - destruct (Py.contains " at " s) eqn:Hc.
    + destruct (at_first_occurrence s Hc) as (p & rest & -> & Hp).
      destruct (IH rest) as (pieces & after & -> & Hpieces & Hafter).
      { rewrite !length_append in Hlen. simpl in Hlen. lia. }
      exists (p :: pieces), after.
      change ((p :: pieces) ++ [after])%list with (p :: pieces ++ [after])%list.
      rewrite join_snoc_cons.
      split; [reflexivity | split; [constructor; assumption | exact Hafter]].
    + exists [], s. split; [reflexivity | split; [constructor | exact Hc]].
Qed.

(** [company_of]: the last of the pieces [split] finds, cut before the
    first "(" and stripped. *)
Lemma company_of_pieces (s : string) :
  Py.contains " at " s = true ->
  exists pieces after name rest,
    pieces <> []
    /\ s = Py.join " at " (pieces ++ [after])
    /\ Forall closed_by_at pieces
    /\ Py.contains " at " after = false
    /\ after = name ++ rest
    /\ (rest = EmptyString \/ Py.startswith rest "(" = true)
    /\ Py.contains "(" name = false
    /\ company_of s = Py.strip name.
Proof.
  intros Hc.
  destruct (split_at_pieces (String.length s) s (le_n _))
    as (pieces & after & Hs & Hpieces & Hafter).
  destruct (split_go_first "(" EmptyString after EmptyString)
    as (name & rest & Hn & Hrest & Hname & Hhd).
  exists pieces, after, name, rest.
  split; [|split; [exact Hs|split; [exact Hpieces|split; [exact Hafter|
    split; [exact Hn|split; [exact Hrest|split; [exact Hname|]]]]]]].
  - intros ->. cbn [app Py.join] in Hs. congruence.
  - unfold company_of. rewrite Hs at 1.
    rewrite (split_at_join pieces after Hpieces Hafter), last_last.
    unfold Py.split. rewrite Hhd. reflexivity.
Qed.

(** C7, as the code has it.  With the sentences "I worked at Acme Corp
    (NYC)" and "We shipped features.", the second holding an ORG entity,
    the companies contain "Acme Corp" and not "Acme Corp (NYC)".  In
    general, after a sentence with " at " the current company is the last
    of the pieces that [split] finds, cut before the first "(" and
    stripped, and after any other sentence it is what it was.  The pieces
    are those between the occurrences of " at " met scanning from the left,
    an occurrence never beginning inside the one before; there is one way
    only to cut a text so, and in "I was at at Acme" the last piece is
    "at Acme".  The companies are exactly the current companies of the
    sentences that hold an ORG entity, when set and not empty: after
    "We met at (NYC) with Initech" the current company is empty and nothing
    is collected. *)
Theorem companies_current_company :
  (forall toks es chunks ents1 ents2,
      has_org (mk_sent "We shipped features." ents2) = true ->
      let doc := mk_doc toks es
                   [mk_sent "I worked at Acme Corp (NYC)" ents1;
                    mk_sent "We shipped features." ents2] chunks in
      In "Acme Corp" (_extract_companies doc)
      /\ ~ In "Acme Corp (NYC)" (_extract_companies doc))
  /\ (forall pre sent,
        fst (companies_loop (pre ++ [sent])) =
        if Py.contains " at " (sent_text sent)
        then Some (company_of (sent_text sent))
        else fst (companies_loop pre))
  /\ (forall s,
        Py.contains " at " s = true ->
        exists pieces after name rest,
          pieces <> []
          /\ s = Py.join " at " (pieces ++ [after])
          /\ Forall (fun piece => Py.contains " at " (piece ++ " at") = false) pieces
          /\ Py.contains " at " after = false
          /\ after = name ++ rest
          /\ (rest = EmptyString \/ Py.startswith rest "(" = true)
          /\ Py.contains "(" name = false
          /\ company_of s = Py.strip name)
  /\ (forall pieces after pieces' after',
        Forall (fun piece => Py.contains " at " (piece ++ " at") = false) pieces ->
        Py.contains " at " after = false ->
        Forall (fun piece => Py.contains " at " (piece ++ " at") = false) pieces' ->
        Py.contains " at " after' = false ->
        Py.join " at " (pieces ++ [after]) = Py.join " at " (pieces' ++ [after']) ->
        pieces = pieces' /\ after = after')
  /\ (company_of "I was at at Acme" = "at Acme"
      /\ company_of "We met at (NYC) with Initech" = EmptyString)
  /\ (forall doc c,
        In c (_extract_companies doc) <->
        exists pre sent post,
          sents doc = (pre ++ sent :: post)%list
          /\ has_org sent = true
          /\ fst (companies_loop (pre ++ [sent])) = Some c
          /\ c <> EmptyString)
  /\ (forall toks es chunks ents1,
        _extract_companies
          (mk_doc toks es [mk_sent "We met at (NYC) with Initech" ents1] chunks) = []).
Proof.
  split; [|split; [|split; [|split; [|split; [|split]]]]].
  - intros toks es chunks ents1 ents2 Horg doc.
    assert (forall c, In c (_extract_companies doc) -> c = "Acme Corp") as Honly.
    { intros c Hin. apply companies_In in Hin
        as (pre & sent & post & Hs & _ & Hc & _).
      rewrite companies_loop_snoc, companies_step_current in Hc.
      simpl in Hs.
      destruct pre as [|s1 [|s2 [|s3 pre]]]; simpl in Hs.
      - injection Hs as <- _. vm_compute in Hc.
        injection Hc as Hc. symmetry. exact Hc.
      - injection Hs as <- <- _.
        change (companies_loop [?x]) with (companies_loop ([] ++ [x])) in Hc.
        rewrite companies_loop_snoc, companies_step_current in Hc.
        vm_compute in Hc. injection Hc as Hc. symmetry. exact Hc.
      - discriminate Hs.
      - discriminate Hs. }
    split.
    + apply companies_In.
      exists [mk_sent "I worked at Acme Corp (NYC)" ents1],
             (mk_sent "We shipped features." ents2), [].
      split; [reflexivity|]. split; [exact Horg|]. split; [|discriminate].
      rewrite companies_loop_snoc, companies_step_current.
      change (companies_loop [?x]) with (companies_loop ([] ++ [x])).
      rewrite companies_loop_snoc, companies_step_current.
      reflexivity.
    + intros Hin. apply Honly in Hin. discriminate.
  - intros pre sent. rewrite companies_loop_snoc. apply companies_step_current.
  - apply company_of_pieces.
  - intros pieces after pieces' after' Hp Ha Hp' Ha' Hjoin.
    apply (f_equal (Py.split " at ")) in Hjoin.
    rewrite (split_at_join pieces after Hp Ha),
            (split_at_join pieces' after' Hp' Ha') in Hjoin.
    apply app_inj_tail in Hjoin. exact Hjoin.
  - split; reflexivity.
  - apply companies_In.
  - intros toks es chunks ents1. unfold _extract_companies. cbn [sents].
    change [mk_sent "We met at (NYC) with Initech" ents1]
      with ([] ++ [mk_sent "We met at (NYC) with Initech" ents1])%list.
    rewrite companies_loop_snoc, companies_step_appended, companies_step_current.
    reflexivity.
Qed.

Lemma companies_current_company_witness :
  In "Acme Corp"
     (_extract_companies
        (mk_doc [] []
           [mk_sent "I worked at Acme Corp (NYC)" [];
            mk_sent "We shipped features." [mk_span "We" "ORG" "nsubj"]] [])).
Proof.
  apply (proj1 companies_current_company [] [] [] []
               [mk_span "We" "ORG" "nsubj"]).
  reflexivity.
Defined.

(** C7 as stated fails twice.  In "I was at at Acme" the last " at " is
    followed by "Acme", and the code makes "at Acme" the company: [split]
    does not see an occurrence that begins inside the one before.  After
    "We met at (NYC) with Initech" the current company is the empty string
    and the sentence holds an ORG entity, yet nothing is appended. *)
Lemma company_after_last_at_counterexample :
  let overlapping :=
    mk_doc [] [] [mk_sent "I was at at Acme" [mk_span "Acme" "ORG" "pobj"]] [] in
  let empty_name :=
    mk_doc [] [] [mk_sent "We met at (NYC) with Initech"
                    [mk_span "Initech" "ORG" "pobj"]] [] in
  (Spec.after_last " at " "I was at at Acme" = Some "Acme"
   /\ Spec.companies overlapping = ["Acme"]
   /\ _extract_companies overlapping = ["at Acme"])
  /\ (Spec.after_last " at " "We met at (NYC) with Initech" = Some "(NYC) with Initech"
      /\ Spec.companies empty_name = [EmptyString]
      /\ _extract_companies empty_name = [])
  /\ ~ (forall doc c, In c (_extract_companies doc) <-> In c (Spec.companies doc)).
Proof.
  intros overlapping empty_name.
  assert (Hover : Spec.companies overlapping = ["Acme"]
                  /\ _extract_companies overlapping = ["at Acme"])
    by (split; vm_compute; reflexivity).
  split; [split; [reflexivity | exact Hover]|].
  split; [split; [reflexivity | split; vm_compute; reflexivity]|].
  intros H. destruct Hover as [Hspec Hcode].
  assert (Hin : In "Acme" (Spec.companies overlapping))
    by (rewrite Hspec; left; reflexivity).
  apply H in Hin. rewrite Hcode in Hin.
  destruct Hin as [Hin|[]]. discriminate Hin.
Qed.

(** C9: when no sentence contains " at ", no company is extracted, whatever
    ORG entities the sentences hold. *)
Theorem companies_need_at (doc : Doc) :
  Forall (fun sent => Py.contains " at " (sent_text sent) = false) (sents doc) ->
  _extract_companies doc = [].
Proof.
  intros H. unfold _extract_companies.
  rewrite (companies_loop_no_at _ H). reflexivity.
Qed.

Lemma companies_need_at_witness :
  _extract_companies
    (mk_doc [] [mk_span "Acme Corp" "ORG" "pobj"]
       [mk_sent "Acme Corp hired me." [mk_span "Acme Corp" "ORG" "nsubj"]] []) = [].
Proof.
  apply companies_need_at. simpl.
  constructor; [reflexivity | constructor].
Defined.

(** ** The worked example of the two text sections *)

(** C6: on "Summary: Built scalable systems.\nEducation: BS Computer
    Science" the summary is "Built scalable systems." and the education is
    the single line "BS Computer Science". *)
Theorem summary_education_example :
  let text := "Summary: Built scalable systems." ++ nl ++ "Education: BS Computer Science" in
  _extract_summary text = "Built scalable systems."
  /\ _extract_education text = ["BS Computer Science"].
Proof. split; vm_compute; reflexivity. Qed.

(** ** The output record *)

Lemma parse_resume_Ok (env : Env) (pdf_path : string) (r : ResumeRecord) :
  parse_resume env pdf_path = Ok r ->
  exists pages doc experience,
    pdf_pages env pdf_path = Ok pages
    /\ nlp env (Py.join nl pages) = Ok doc
    /\ _calculate_experience env doc = Ok experience
    /\ r = {| summary := _extract_summary (Py.join nl pages);
              total_experience := experience;
              skills := _extract_skills doc;
              companies := _extract_companies doc;
              positions := _extract_positions doc;
              education := _extract_education (Py.join nl pages);
              certifications := _extract_certifications doc;
              tools := _extract_tools doc |}.
Proof.
  unfold parse_resume, _extract_text, rbind. intros H.
  destruct (pdf_pages env pdf_path) as [pages|] eqn:Hp; [|discriminate].
  destruct (nlp env (Py.join nl pages)) as [doc|] eqn:Hd; [|discriminate].
  destruct (_calculate_experience env doc) as [experience|] eqn:He; [|discriminate].
  injection H as <-. exists pages, doc, experience. auto.
Qed.

(** C1, as the code has it: in every record [parse_resume] returns, the
    skills, the companies, the positions, the certifications and the tools
    hold no string twice.  (The education lines are kept as they come.) *)
Theorem set_fields_have_no_duplicates (env : Env) (pdf_path : string) (r : ResumeRecord) :
  parse_resume env pdf_path = Ok r ->
  List.NoDup (skills r)
  /\ List.NoDup (companies r)
  /\ List.NoDup (positions r)
  /\ List.NoDup (certifications r)
  /\ List.NoDup (tools r).
Proof.
  intros H. apply parse_resume_Ok in H as (pages & doc & experience & _ & _ & _ & ->).
  simpl. repeat split; try apply list_set_NoDup. apply skills_NoDup.
Qed.

Lemma set_fields_have_no_duplicates_witness :
  exists r,
    parse_resume Sample.two_pages "cv.pdf" = Ok r
    /\ List.NoDup (skills r)
    /\ List.NoDup (companies r)
    /\ List.NoDup (positions r)
    /\ List.NoDup (certifications r)
    /\ List.NoDup (tools r).
Proof.
  eexists. split; [reflexivity|].
  apply (set_fields_have_no_duplicates Sample.two_pages "cv.pdf"). reflexivity.
Defined.

(** C1 as stated fails: the education field of a parsed document can hold
    the same line twice. *)
Lemma every_list_field_deduplicated_counterexample :
  ~ (forall env pdf_path r,
        parse_resume env pdf_path = Ok r ->
        List.NoDup (skills r) /\ List.NoDup (companies r)
        /\ List.NoDup (positions r) /\ List.NoDup (education r)
        /\ List.NoDup (certifications r) /\ List.NoDup (tools r)).
Proof.
  intros H.
  destruct (H Sample.two_pages "cv.pdf" _ eq_refl) as (_ & _ & _ & Hedu & _).
  change (List.NoDup ["Bachelor of Science"; "Leeds"; "Bachelor of Science"; "York"])
    in Hedu.
  apply NoDup_cons_iff in Hedu as [Hnot _]. apply Hnot. right. left. reflexivity.
Qed.

(** ** The batch driver *)

Section DriverFacts.

Variable env : Env.
Variable json_text : ResumeRecord -> string.
Variables input_dir output_dir : string.

Local Abbreviation step := (process_file env json_text input_dir output_dir).
Local Abbreviation run := (process_resumes env json_text input_dir output_dir).

Lemma process_file_stdout (w : World) (file : string) :
  stdout (step w file) = (stdout w ++ printed env input_dir file)%list.
Proof.
  unfold process_file, printed, failure.
  destruct (is_pdf file); [|symmetry; apply app_nil_r].
  destruct (parse_resume env (Path.join input_dir file)) as [r|e]; [|reflexivity].
  destruct (fs_write env file); simpl; try reflexivity.
  symmetry; apply app_nil_r.
Qed.


Lemma process_resumes_cons (file : string) (l : list string) (w : World) :
  run (file :: l) w = run l (step w file).
Proof. reflexivity. Qed.

Lemma process_resumes_app (l1 l2 : list string) (w : World) :
  run (l1 ++ l2) w = run l2 (run l1 w).
Proof. unfold process_resumes. apply fold_left_app. Qed.

Lemma process_resumes_stdout (l : list string) (w : World) :
  stdout (run l w) = (stdout w ++ flat_map (printed env input_dir) l)%list.
Proof.
  revert w. induction l as [|file l IH]; intros w.
  - simpl. symmetry. apply app_nil_r.
  - rewrite process_resumes_cons, IH, process_file_stdout.
    simpl. rewrite <- app_assoc. reflexivity.
Qed.


(** A pdf file whose handling fails before any text reaches the output
    file leaves the files as they were. *)
Lemma process_file_no_output (w : World) (file : string) :
  is_pdf file = true ->
  (exists e, parse_resume env (Path.join input_dir file) = Raise e)
  \/ (exists e, fs_write env file = OpenRaises e) ->
  fs (step w file) = fs w.
Proof.
  intros Hpdf H. unfold process_file. rewrite Hpdf.
  destruct (parse_resume env (Path.join input_dir file)) as [r|e']; [|reflexivity].
  destruct H as [[e H]|[e H]]; [discriminate|]. rewrite H. reflexivity.
Qed.

End DriverFacts.


(** ** Suffixes *)

Lemma endswith_unfold (s suf : string) :
  Py.endswith s suf =
  String.eqb s suf || match s with
                      | EmptyString => false
                      | String _ s' => Py.endswith s' suf
                      end.
Proof. destruct s; reflexivity. Qed.

Lemma endswith_iff (s suf : string) :
  Py.endswith s suf = true <-> exists p, s = p ++ suf.
Proof.
  induction s as [|c s IH]; rewrite endswith_unfold.
  - rewrite orb_false_r, String.eqb_eq. split.
    + intros <-. exists EmptyString. reflexivity.
    + intros [[|x p] H]; [exact H | discriminate].
  - rewrite orb_true_iff, String.eqb_eq, IH. split.
    + intros [<- | [p ->]]; [exists EmptyString | exists (String c p)]; reflexivity.
    + intros [[|x p] H]; [left; exact H|].
      rewrite append_cons in H. injection H as -> ->. right. eauto.
Qed.

Lemma append_snoc_inj (p q : string) (c d : ascii) :
  p ++ String c EmptyString = q ++ String d EmptyString -> c = d.
Proof.
  revert q. induction p as [|x p IH]; intros [|y q] H;
    rewrite ?append_cons, ?append_nil_l in H.
  - injection H as ->. reflexivity.
  - injection H as _ H. destruct q; discriminate.
  - injection H as _ H. destruct p; discriminate.
  - injection H as _ H. apply (IH q H).
Qed.




Lemma contains_unfold (sub s : string) :
  Py.contains sub s =
  Py.startswith s sub || match s with
                         | EmptyString => false
                         | String _ s' => Py.contains sub s'
                         end.
Proof. destruct s; reflexivity. Qed.

Lemma contains_append (sub a b : string) : Py.contains sub (a ++ sub ++ b) = true.
Proof.
  induction a as [|c a IH].
  - rewrite append_nil_l, contains_unfold.
    assert (Py.startswith (sub ++ b) sub = true) as ->; [|reflexivity].
    apply startswith_iff. eauto.
  - rewrite append_cons, contains_cons, IH. apply orb_true_r.
Qed.

(** ** Failures in the batch *)

Section Batch.

Variable env : Env.
Variable json_text : ResumeRecord -> string.
Variables input_dir output_dir : string.

Local Abbreviation step := (process_file env json_text input_dir output_dir).
Local Abbreviation run := (process_resumes env json_text input_dir output_dir).

Lemma process_file_fs (w : World) (file : string) :
  is_pdf file = true ->
  fs (step w file) =
  match parse_resume env (Path.join input_dir file) with
  | Ok r =>
      match fs_write env file with
      | Written => <[output_path output_dir file := json_text r]> (fs w)
      | OpenRaises _ => fs w
      | DumpRaises _ reached =>
          <[output_path output_dir file := Py.take reached (json_text r)]> (fs w)
      end
  | Raise _ => fs w
  end.
Proof.
  intros Hpdf. unfold process_file. rewrite Hpdf.
  destruct (parse_resume env (Path.join input_dir file)) as [r|e]; [|reflexivity].
  destruct (fs_write env file); reflexivity.
Qed.




End Batch.



(** ** The report log *)



Lemma dec_length (width : nat) (n : Z) : String.length (Report.dec width n) = width.
Proof.
  revert n. induction width as [|w IH]; intros n; [reflexivity|].
  cbn [Report.dec]. rewrite length_append, IH. cbn [String.length]. lia.
Qed.




(** ** Sorting datetimes *)

Module DatetimeFacts.

Import Datetime.

Lemma lt_same (a b : datetime) :
  aware a = aware b -> lt a b = Ok (instant a <? instant b)%Z.
Proof. intros H. unfold lt. rewrite H, eqb_reflx. reflexivity. Qed.

Lemma lt_mixed (a b : datetime) :
  aware a <> aware b -> lt a b = Raise compare_error.
Proof.
  intros H. unfold lt. destruct (Bool.eqb (aware a) (aware b)) eqn:E; [|reflexivity].
  apply eqb_prop in E. contradiction.
Qed.

Lemma sub_days_same (a b : datetime) :
  aware a = aware b -> sub_days a b = Ok ((instant a - instant b) / us_per_day)%Z.
Proof. intros H. unfold sub_days. rewrite H, eqb_reflx. reflexivity. Qed.

Lemma insert_uniform (b : bool) (x : datetime) (l : list datetime) :
  aware x = b -> uniform b l -> StronglySorted earlier l ->
  exists r, insert x l = Ok r
            /\ Permutation (x :: l) r
            /\ StronglySorted earlier r.
Proof.
  intros Hx Hl Hs. induction l as [|y l IH].
  - exists [x]. repeat split; [apply Permutation_refl|].
    constructor; constructor.
  - apply Forall_cons_iff in Hl as [Hy Hl].
    apply StronglySorted_inv in Hs as [Hs Hle].
    cbn [insert]. rewrite lt_same by congruence. cbn [rbind].
    destruct (instant y <? instant x)%Z eqn:E.
    + destruct (IH Hl Hs) as (r & -> & Hperm & Hsorted). cbn [rbind].
      exists (y :: r). repeat split.
      * rewrite perm_swap. apply perm_skip, Hperm.
      * constructor; [exact Hsorted|].
        apply (Permutation_Forall Hperm). constructor; [|exact Hle].
        apply Z.ltb_lt in E. unfold earlier. lia.
    + exists (x :: y :: l). repeat split; [apply Permutation_refl|].
      apply Z.ltb_ge in E.
      constructor; [constructor; assumption|].
      constructor; [exact E|].
      eapply Forall_impl; [exact Hle|]. unfold earlier. intros d Hd. lia.
Qed.

(** A list that does not mix naive and aware values gets sorted. *)
Lemma sorted_uniform (b : bool) (l : list datetime) :
  uniform b l ->
  exists r, sorted l = Ok r /\ Permutation l r /\ StronglySorted earlier r.
Proof.
  induction l as [|x l IH]; intros Hl.
  - exists []. repeat split; constructor.
  - apply Forall_cons_iff in Hl as [Hx Hl].
    destruct (IH Hl) as (r & Hr & Hperm & Hsorted).
    cbn [sorted]. rewrite Hr. cbn [rbind].
    destruct (insert_uniform b x r Hx) as (r' & Hr' & Hperm' & Hsorted');
      [apply (Permutation_Forall Hperm), Hl | exact Hsorted|].
    exists r'. repeat split; [exact Hr' | | exact Hsorted'].
    rewrite <- Hperm'. apply perm_skip, Hperm.
Qed.

(** A list that mixes them does not: some comparison raises. *)
Lemma sorted_dichotomy (l : list datetime) :
  sorted l = Raise compare_error \/ exists b, uniform b l.
Proof.
  induction l as [|x l IH].
  - right. exists true. constructor.
  - destruct IH as [IH | [b Hl]].
    + left. cbn [sorted]. rewrite IH. reflexivity.
    + destruct l as [|y l].
      * right. exists (aware x). constructor; [reflexivity | constructor].
      * destruct (Bool.bool_dec (aware x) b) as [Hx | Hx].
        -- right. exists b. constructor; assumption.
        -- left. destruct (sorted_uniform b (y :: l) Hl) as (r & Hr & Hperm & _).
           cbn [sorted] in *. rewrite Hr. cbn [rbind].
           destruct r as [|z r].
           { apply Permutation_sym, Permutation_nil in Hperm. discriminate. }
           assert (aware z = b) as Hz.
           { apply (Permutation_Forall Hperm) in Hl.
             apply Forall_cons_iff in Hl as [Hz _]. exact Hz. }
           cbn [insert]. rewrite lt_mixed by congruence. reflexivity.
Qed.

Lemma sorted_mixed (l : list datetime) (x y : datetime) :
  In x l -> In y l -> aware x <> aware y -> sorted l = Raise compare_error.
Proof.
  intros Hx Hy Hne. destruct (sorted_dichotomy l) as [H | [b Hl]]; [exact H|].
  unfold uniform in Hl. rewrite List.Forall_forall in Hl.
  rewrite (Hl x Hx), (Hl y Hy) in Hne. contradiction.
Qed.

Lemma sorted_ends (d0 : datetime) (r : list datetime) :
  StronglySorted earlier (d0 :: r) ->
  Forall (earlier d0) (d0 :: r)
  /\ Forall (fun d => earlier d (List.last (d0 :: r) d0)) (d0 :: r)
  /\ In (List.last (d0 :: r) d0) (d0 :: r).
Proof.
  intros Hs. split; [|split].
  - apply StronglySorted_inv in Hs as [_ Hle].
    constructor; [unfold earlier; lia | exact Hle].
  - generalize d0 at 2 as dflt. revert d0 Hs.
    induction r as [|y r IH]; intros d0 Hs dflt.
    + constructor; [unfold earlier; simpl; lia | constructor].
    + apply StronglySorted_inv in Hs as [Hs Hle].
      change (List.last (d0 :: y :: r) dflt) with (List.last (y :: r) dflt).
      specialize (IH y Hs dflt). constructor; [|exact IH].
      apply Forall_cons_iff in Hle as [Hy _].
      apply Forall_cons_iff in IH as [Hlast _].
      unfold earlier in *. lia.
  - generalize d0 at 2 as dflt. revert d0 Hs.
    induction r as [|y r IH]; intros d0 Hs dflt; [left; reflexivity|].
    apply StronglySorted_inv in Hs as [Hs _].
    change (List.last (d0 :: y :: r) dflt) with (List.last (y :: r) dflt).
    right. apply (IH y Hs).
Qed.

End DatetimeFacts.

(** ** Years of experience *)

Section Experience.

Import Datetime DatetimeFacts.

Variable env : Env.

Lemma only_dates_length (dates : list (option datetime)) :
  (List.length (only_dates dates) <= List.length dates)%nat.
Proof.
  induction dates as [|[d|] dates IH]; simpl in *; lia.
Qed.

Lemma collect_dates_from_In (es : list Span) (calls : nat) (d : datetime) :
  In (Some d) (collect_dates_from env calls es) ->
  exists ent call, In ent es
                   /\ label_ ent = "DATE"
                   /\ (4 < String.length (text ent))%nat
                   /\ date_parse env call (text ent) = Parsed d.
Proof.
  revert calls. induction es as [|ent es IH]; intros calls; cbn [collect_dates_from].
  - intros [].
  - assert (Hrest : forall n, In (Some d) (collect_dates_from env n es) ->
              exists e call, In e (ent :: es) /\ label_ e = "DATE"
                             /\ (4 < String.length (text e))%nat
                             /\ date_parse env call (text e) = Parsed d).
    { intros n H. destruct (IH n H) as (e & call & He & H'). exists e, call.
      cbn [List.In]. tauto. }
    destruct (String.eqb (label_ ent) "DATE") eqn:Hl; cbn [andb];
      [destruct (4 <? String.length (text ent))%nat eqn:Hlen|]; eauto.
    apply String.eqb_eq in Hl. apply Nat.ltb_lt in Hlen.
    destruct (date_parse env calls (text ent)) as [d'| |] eqn:Hp; cbn [List.In]; eauto.
    + intros [[= <-] | H]; eauto. exists ent, calls. cbn [List.In]. tauto.
    + intros [[=] | H]; eauto.
Qed.

(** A date that parsed to [None] is not among the valid dates: every valid
    date is what a call of the parser returned for some DATE entity longer
    than 4 characters. *)
Lemma valid_dates_In (doc : Doc) (d : datetime) :
  In d (valid_dates env doc) ->
  exists ent call, In ent (ents doc)
                   /\ label_ ent = "DATE"
                   /\ (4 < String.length (text ent))%nat
                   /\ date_parse env call (text ent) = Parsed d.
Proof.
  intros H. apply (collect_dates_from_In (ents doc) 0 d).
  unfold valid_dates, only_dates in H.
  apply list_elem_of_In, list_elem_of_omap in H.
  destruct H as ([x|] & Hx & [= <-]). apply list_elem_of_In. exact Hx.
Qed.

(** Fewer than two valid dates: zero years. *)
Lemma experience_few_dates (doc : Doc) :
  (List.length (valid_dates env doc) < 2)%nat ->
  _calculate_experience env doc = Ok 0%Z.
Proof.
  intros Hfew. unfold _calculate_experience. fold (valid_dates env doc).
  destruct (List.length (collect_dates env (ents doc)) <? 2)%nat; [reflexivity|].
  destruct (valid_dates env doc) as [|d [|d' l]]; [reflexivity | | simpl in Hfew; lia].
  cbn [sorted insert rbind List.last].
  rewrite sub_days_same by reflexivity. cbn [rbind].
  rewrite Z.sub_diag. reflexivity.
Qed.

(** Two valid dates or more, all naive or all aware: the whole years
    between the earliest and the latest. *)
Lemma experience_span (doc : Doc) (b : bool) :
  (2 <= List.length (valid_dates env doc))%nat ->
  uniform b (valid_dates env doc) ->
  exists earliest latest,
    In earliest (valid_dates env doc)
    /\ In latest (valid_dates env doc)
    /\ Forall (fun d => earlier earliest d /\ earlier d latest) (valid_dates env doc)
    /\ _calculate_experience env doc
       = Ok ((instant latest - instant earliest) / us_per_day / 365)%Z
    /\ (0 <= (instant latest - instant earliest) / us_per_day / 365)%Z.
Proof.
  intros Hmany Hb. unfold _calculate_experience. fold (valid_dates env doc).
  pose proof (only_dates_length (collect_dates env (ents doc))) as Hlen.
  fold (valid_dates env doc) in Hlen.
  destruct (List.length (collect_dates env (ents doc)) <? 2)%nat eqn:E;
    [apply Nat.ltb_lt in E; lia|].
  destruct (sorted_uniform b _ Hb) as (r & -> & Hperm & Hsorted). cbn [rbind].
  destruct r as [|d0 r].
  { apply Permutation_sym, Permutation_nil in Hperm.
    rewrite Hperm in Hmany. simpl in Hmany. lia. }
  destruct (sorted_ends d0 r Hsorted) as (Hfirst & Hlast & Hin).
  assert (uniform b (d0 :: r)) as Hr by (apply (Permutation_Forall Hperm), Hb).
  unfold uniform in Hr. rewrite List.Forall_forall in Hr.
  rewrite sub_days_same
    by (rewrite (Hr d0 (or_introl eq_refl)), (Hr _ Hin); reflexivity).
  cbn [rbind].
  exists d0, (List.last (d0 :: r) d0).
  split; [|split; [|split; [|split]]].
  - apply (Permutation_in _ (Permutation_sym Hperm)). left. reflexivity.
  - apply (Permutation_in _ (Permutation_sym Hperm)), Hin.
  - apply (Permutation_Forall (Permutation_sym Hperm)).
    rewrite List.Forall_forall in Hfirst, Hlast. apply List.Forall_forall.
    intros d Hd. split; [apply Hfirst | apply Hlast]; exact Hd.
  - reflexivity.
  - rewrite List.Forall_forall in Hfirst. specialize (Hfirst _ Hin).
    unfold earlier in Hfirst.
    apply Z.div_pos; [|lia]. apply Z.div_pos; [lia | reflexivity].
Qed.

(** A naive valid date together with an aware one: the sort raises. *)
Lemma experience_mixed (doc : Doc) (x y : datetime) :
  In x (valid_dates env doc) -> In y (valid_dates env doc) ->
  aware x <> aware y ->
  _calculate_experience env doc = Raise compare_error.
Proof.
  intros Hx Hy Hne. unfold _calculate_experience. fold (valid_dates env doc).
  pose proof (only_dates_length (collect_dates env (ents doc))) as Hlen.
  fold (valid_dates env doc) in Hlen.
  destruct (List.length (collect_dates env (ents doc)) <? 2)%nat eqn:E.
  - apply Nat.ltb_lt in E.
    destruct (valid_dates env doc) as [|d [|d' l]]; simpl in *; try lia.
    destruct Hx as [<-|[]], Hy as [<-|[]]. contradiction.
  - rewrite (sorted_mixed _ x y Hx Hy Hne). reflexivity.
Qed.

End Experience.

(** C2 at a failing input: the entities "January 2015", "June 2021" (both
    parsed to naive datetimes) and "January 12, 2012 10:00 PM EST" (parsed
    to an aware one) make three valid dates, yet no number of years comes
    out: sorting them raises. *)
Theorem experience_of_three_dates_raises :
  List.length (valid_dates Sample.dated Sample.two_naive_one_aware) = 3%nat
  /\ _calculate_experience Sample.dated Sample.two_naive_one_aware
     = Raise "can't compare offset-naive and offset-aware datetimes".
Proof. split; reflexivity. Qed.

(** C10 at a failing input: no date of the document parses to [None], and
    the calculation still does not return: "January 2015" gives a naive
    datetime, "January 12, 2012 10:00 PM EST" an aware one, and Python
    refuses to compare the two. *)
Theorem experience_is_not_total :
  collect_dates Sample.dated (ents Sample.naive_and_aware)
  = [Some Sample.january_2015; Some Sample.january_2012_est]
  /\ _calculate_experience Sample.dated Sample.naive_and_aware
     = Raise "can't compare offset-naive and offset-aware datetimes".
Proof. split; reflexivity. Qed.

(** ** The matcher on the two patterns *)

Module ReFacts.

Import Re.

Lemma orelse_None_r (a : option answer) : orelse a None = a.
Proof. destruct a; reflexivity. Qed.

Lemma rmatch_Cat r1 r2 s cs k :
  rmatch (Cat r1 r2) s cs k = rmatch r1 s cs (fun s1 cs1 => rmatch r2 s1 cs1 k).
Proof. reflexivity. Qed.

Lemma rmatch_Group n r s cs k :
  rmatch (Group n r) s cs k =
  rmatch r s cs (fun s1 cs1 =>
    k s1 ((n, Py.take (String.length s - String.length s1) s) :: cs1)).
Proof. reflexivity. Qed.

Lemma star_chr (p : ascii -> bool) k (fuel : nat) :
  forall s cs, (String.length s <= fuel)%nat ->
    star_loop (rmatch (Chr p)) k fuel s cs = greedy p k s cs.
Proof.
  induction fuel as [|fuel IH]; intros s cs Hlen.
  - destruct s; [reflexivity | simpl in Hlen; lia].
  - destruct s as [|c s]; cbn [star_loop rmatch greedy]; [reflexivity|].
    destruct (p c); [|reflexivity].
    assert ((String.length s <? String.length (String c s))%nat = true) as ->
      by (apply Nat.ltb_lt; simpl; lia).
    rewrite IH by (simpl in Hlen; lia). reflexivity.
Qed.

Lemma lazy_chr (p : ascii -> bool) k (fuel : nat) :
  forall s cs, (String.length s <= fuel)%nat ->
    lazy_loop (rmatch (Chr p)) k fuel s cs = lazy p k s cs.
Proof.
  induction fuel as [|fuel IH]; intros s cs Hlen.
  - destruct s; [|simpl in Hlen; lia]. cbn [lazy_loop lazy].
    rewrite orelse_None_r. reflexivity.
  - destruct s as [|c s]; cbn [lazy_loop rmatch lazy]; [reflexivity|].
    destruct (p c); [|reflexivity].
    assert ((String.length s <? String.length (String c s))%nat = true) as ->
      by (apply Nat.ltb_lt; simpl; lia).
    rewrite IH by (simpl in Hlen; lia). reflexivity.
Qed.

Lemma rmatch_Star_chr p s cs k : rmatch (Star (Chr p)) s cs k = greedy p k s cs.
Proof. cbn [rmatch]. apply star_chr. apply le_n. Qed.

Lemma rmatch_LazyStar_chr p s cs k : rmatch (LazyStar (Chr p)) s cs k = lazy p k s cs.
Proof. cbn [rmatch]. apply lazy_chr. apply le_n. Qed.

(** A literal word, letter case aside. *)
Lemma rmatch_lit (w : string) :
  forall s cs k,
    rmatch (lit w) s cs k =
    match Scan.after_word w s with
    | Some rest => k rest cs
    | None => None
    end.
Proof.
  induction w as [|a w IH]; intros s cs k; [reflexivity|].
  cbn [lit Scan.after_word]. rewrite rmatch_Cat. unfold ci. cbn [rmatch].
  destruct s as [|b s]; [reflexivity|].
  destruct (Ascii.eqb (Py.lower_char b) (Py.lower_char a)); [apply IH | reflexivity].
Qed.

Lemma lstrip_drop_while (s : string) : Py.lstrip s = drop_while Py.isspace s.
Proof. induction s as [|c s IH]; simpl; [reflexivity|]. rewrite IH. reflexivity. Qed.

Lemma skip_word_drop_while (s : string) :
  Scan.skip_word_chars s = drop_while Py.isword s.
Proof. induction s as [|c s IH]; simpl; [reflexivity|]. rewrite IH. reflexivity. Qed.

(** When the rest of the pattern matches wherever it is tried, a greedy
    class never gives anything back. *)
Lemma greedy_total (p : ascii -> bool) k cs :
  (forall s, exists a, k s cs = Some a) ->
  forall s, greedy p k s cs = k (drop_while p s) cs.
Proof.
  intros Hk. induction s as [|c s IH]; cbn [greedy drop_while]; [reflexivity|].
  destruct (p c); [|reflexivity].
  rewrite IH. destruct (Hk (drop_while p s)) as [a ->]. reflexivity.
Qed.

Lemma rmatch_Chr p s cs k :
  rmatch (Chr p) s cs k =
  match s with
  | String c s' => if p c then k s' cs else None
  | EmptyString => None
  end.
Proof. reflexivity. Qed.

Lemma rmatch_Alt r1 r2 s cs k :
  rmatch (Alt r1 r2) s cs k = orelse (rmatch r1 s cs k) (rmatch r2 s cs k).
Proof. reflexivity. Qed.

Lemma rmatch_Opt r s cs k :
  rmatch (Opt r) s cs k = orelse (rmatch r s cs k) (k s cs).
Proof. reflexivity. Qed.

Lemma rmatch_Ahead r s cs k :
  rmatch (Ahead r) s cs k =
  match rmatch r s cs accept with
  | Some (_, cs1) => k s cs1
  | None => None
  end.
Proof. reflexivity. Qed.

Lemma rmatch_Eos s cs k : rmatch Eos s cs k = if at_end s then k s cs else None.
Proof. reflexivity. Qed.

Lemma word_is_not_colon (c : ascii) : Py.isword c = true -> Ascii.eqb ":" c = false.
Proof.
  intros H. destruct (Ascii.eqb_spec ":" c) as [<-|]; [|reflexivity].
  vm_compute in H. discriminate.
Qed.

(** [\w*:] after the first word character: the colon has to come right
    after the last word character. *)
Lemma word_run_then_colon (s : string) (cs : caps) :
  match greedy Py.isword (fun s1 cs1 => rmatch (chr ":") s1 cs1 accept) s cs with
  | Some (_, cs') => cs' = cs /\ Py.startswith (Scan.skip_word_chars s) ":" = true
  | None => Py.startswith (Scan.skip_word_chars s) ":" = false
  end.
Proof.
  induction s as [|c s IH]; cbn [greedy Scan.skip_word_chars]; [reflexivity|].
  unfold chr at 2. rewrite rmatch_Chr.
  destruct (Py.isword c) eqn:Hw.
  - rewrite (word_is_not_colon c Hw), orelse_None_r. exact IH.
  - unfold chr. rewrite rmatch_Chr. cbn [Py.startswith].
    destruct (Ascii.eqb ":" c); [split; reflexivity | reflexivity].
Qed.

(** [\n\w+:] *)
Lemma label_line (s : string) (cs : caps) :
  match rmatch (Cat (chr "010") (Cat (Plus word) (chr ":"))) s cs accept with
  | Some (_, cs') => cs' = cs /\ Scan.label_line_ahead s = true
  | None => Scan.label_line_ahead s = false
  end.
Proof.
  rewrite rmatch_Cat. unfold chr at 1. rewrite rmatch_Chr.
  destruct s as [|c s]; [reflexivity|]. cbn [Scan.label_line_ahead].
  destruct (Ascii.eqb "010" c); [|destruct s; reflexivity].
  unfold Plus, word. rewrite !rmatch_Cat, rmatch_Chr.
  destruct s as [|d s]; [reflexivity|]. cbn [andb].
  destruct (Py.isword d); [|reflexivity]. cbn [andb].
  rewrite rmatch_Star_chr. apply word_run_then_colon.
Qed.

(** [(?=\n\w+:|$)] *)
Lemma rmatch_next_label_or_end (s : string) (cs : caps) k :
  rmatch next_label_or_end s cs k = if Scan.boundary s then k s cs else None.
Proof.
  unfold next_label_or_end, Scan.boundary. rewrite rmatch_Ahead, rmatch_Alt.
  pose proof (label_line s cs) as H.
  destruct (rmatch (Cat (chr "010") (Cat (Plus word) (chr ":"))) s cs accept)
    as [[e cs']|].
  - destruct H as [-> ->]. reflexivity.
  - rewrite H, rmatch_Eos. cbn [orelse orb]. unfold accept.
    destruct (at_end s); reflexivity.
Qed.

Lemma take_append (pre s : string) :
  Py.take (String.length (pre ++ s) - String.length s) (pre ++ s) = pre.
Proof.
  rewrite length_append.
  replace (String.length pre + String.length s - String.length s)%nat
    with (String.length pre) by lia.
  induction pre as [|c pre IH]; [destruct s; reflexivity|].
  rewrite append_cons. simpl. rewrite IH. reflexivity.
Qed.

(** [(.*?)(?=\n\w+:|$)], begun at [start] and having read [pre] so far:
    the group stops at the first boundary. *)
Lemma lazy_upto_boundary (n : nat) (start : string) (cs : caps) :
  forall s pre, start = pre ++ s ->
    exists e,
      lazy (fun _ => true)
           (fun s1 cs1 =>
              rmatch next_label_or_end s1
                ((n, Py.take (String.length start - String.length s1) start) :: cs1)
                accept) s cs
      = Some (e, (n, pre ++ Scan.upto_boundary s) :: cs).
Proof.
  induction s as [|c s IH]; intros pre Hstart.
  - exists EmptyString. cbn [lazy]. rewrite rmatch_next_label_or_end.
    cbn. rewrite Hstart, take_append, append_nil_r. reflexivity.
  - unfold lazy; fold lazy. rewrite rmatch_next_label_or_end.
    unfold Scan.upto_boundary; fold Scan.upto_boundary.
    destruct (Scan.boundary (String c s)).
    + exists (String c s). unfold accept. cbn [orelse].
      rewrite Hstart, take_append, append_nil_r. reflexivity.
    + cbn [orelse].
      destruct (IH (pre ++ String c EmptyString)) as [e He].
      { rewrite Hstart, append_assoc. reflexivity. }
      exists e. rewrite He, append_assoc. reflexivity.
Qed.

Lemma rmatch_group_upto_boundary (n : nat) (s : string) (cs : caps) :
  exists e,
    rmatch (Cat (Group n (LazyStar any)) next_label_or_end) s cs accept
    = Some (e, (n, Scan.upto_boundary s) :: cs).
Proof.
  rewrite rmatch_Cat, rmatch_Group. unfold any. rewrite rmatch_LazyStar_chr.
  destruct (lazy_upto_boundary n s cs s EmptyString eq_refl) as [e He].
  exists e. exact He.
Qed.

(** [:?] in front of a rest that always matches: the colon is taken when
    it is there. *)
Lemma opt_colon_total (s : string) (cs : caps) k :
  (forall s1, exists a, k s1 cs = Some a) ->
  rmatch (Opt (chr ":")) s cs k = k (Scan.skip_colon s) cs.
Proof.
  intros Hk. rewrite rmatch_Opt. unfold chr. rewrite rmatch_Chr.
  destruct s as [|c s]; [reflexivity|]. cbn [Scan.skip_colon].
  destruct (Ascii.eqb ":" c); [|reflexivity].
  destruct (Hk s) as [a ->]. reflexivity.
Qed.

Lemma space_tail (s : string) (cs : caps) :
  exists e,
    rmatch (Cat (Star space) (Cat (Group 2 (LazyStar any)) next_label_or_end))
           s cs accept
    = Some (e, (2, Scan.upto_boundary (Py.lstrip s)) :: cs).
Proof.
  rewrite rmatch_Cat. unfold space. rewrite rmatch_Star_chr, greedy_total.
  - rewrite lstrip_drop_while. apply rmatch_group_upto_boundary.
  - intros s1. destruct (rmatch_group_upto_boundary 2 s1 cs) as [e He]. eauto.
Qed.

(** [:?\s*(.*?)(?=\n\w+:|$)] *)
Lemma summary_tail (s : string) (cs : caps) :
  exists e,
    rmatch (Cat (Opt (chr ":"))
             (Cat (Star space) (Cat (Group 2 (LazyStar any)) next_label_or_end)))
           s cs accept
    = Some (e, (2, Scan.upto_boundary (Py.lstrip (Scan.skip_colon s))) :: cs).
Proof.
  rewrite rmatch_Cat, opt_colon_total.
  - apply space_tail.
  - intros s1. destruct (space_tail s1 cs) as [e He]. eauto.
Qed.

(** [:?(.*?)(?=\n\w+:|$)] *)
Lemma education_tail (s : string) (cs : caps) :
  exists e,
    rmatch (Cat (Opt (chr ":")) (Cat (Group 2 (LazyStar any)) next_label_or_end))
           s cs accept
    = Some (e, (2, Scan.upto_boundary (Scan.skip_colon s)) :: cs).
Proof.
  rewrite rmatch_Cat, opt_colon_total.
  - apply rmatch_group_upto_boundary.
  - intros s1. destruct (rmatch_group_upto_boundary 2 s1 cs) as [e He]. eauto.
Qed.

(** The whole summary pattern, tried at the beginning of [s]. *)
Lemma summary_here (s : string) :
  match Scan.first_of ["summary"; "objective"] s with
  | Some rest =>
      exists e g1,
        rmatch summary_re s [] accept
        = Some (e, [(2, Scan.upto_boundary (Py.lstrip (Scan.skip_colon rest))); (1, g1)])
  | None => rmatch summary_re s [] accept = None
  end.
Proof.
  unfold summary_re. rewrite rmatch_Cat, rmatch_Group, rmatch_Alt, !rmatch_lit.
  cbn [Scan.first_of].
  destruct (Scan.after_word "summary" s) as [rest|].
  - destruct (summary_tail rest
                [(1, Py.take (String.length s - String.length rest) s)]) as [e He].
    exists e, (Py.take (String.length s - String.length rest) s).
    rewrite He. reflexivity.
  - cbn [orelse]. destruct (Scan.after_word "objective" s) as [rest|]; [|reflexivity].
    destruct (summary_tail rest
                [(1, Py.take (String.length s - String.length rest) s)]) as [e He].
    exists e, (Py.take (String.length s - String.length rest) s). exact He.
Qed.

Lemma education_here (s : string) :
  match Scan.first_of ["education"] s with
  | Some rest =>
      exists e g1,
        rmatch education_re s [] accept
        = Some (e, [(2, Scan.upto_boundary (Scan.skip_colon rest)); (1, g1)])
  | None => rmatch education_re s [] accept = None
  end.
Proof.
  unfold education_re. rewrite rmatch_Cat, rmatch_Group, rmatch_lit.
  cbn [Scan.first_of].
  destruct (Scan.after_word "education" s) as [rest|]; [|reflexivity].
  destruct (education_tail rest
              [(1, Py.take (String.length s - String.length rest) s)]) as [e He].
  exists e, (Py.take (String.length s - String.length rest) s). exact He.
Qed.

Lemma search_unfold (r : regex) (s : string) :
  search r s =
  match rmatch r s [] accept with
  | Some (_, cs) => Some cs
  | None =>
      match s with
      | String _ s' => search r s'
      | EmptyString => None
      end
  end.
Proof. destruct s; reflexivity. Qed.

Lemma find_word_unfold (ws : list string) (s : string) :
  Scan.find_word ws s =
  match Scan.first_of ws s with
  | Some rest => Some rest
  | None =>
      match s with
      | String _ s' => Scan.find_word ws s'
      | EmptyString => None
      end
  end.
Proof. destruct s; reflexivity. Qed.

(** [re.search] with the summary pattern: group 2 of the leftmost match. *)
Lemma search_summary (s : string) :
  option_map (group 2) (search summary_re s)
  = option_map (fun rest => Scan.upto_boundary (Py.lstrip (Scan.skip_colon rest)))
               (Scan.find_word ["summary"; "objective"] s).
Proof.
  induction s as [|c s IH]; rewrite search_unfold, find_word_unfold.
  - pose proof (summary_here EmptyString) as H0.
    destruct (Scan.first_of ["summary"; "objective"] EmptyString) as [rest|].
    + destruct H0 as (e & g1 & ->). reflexivity.
    + rewrite H0. reflexivity.
  - pose proof (summary_here (String c s)) as H1.
    destruct (Scan.first_of ["summary"; "objective"] (String c s)) as [rest|].
    + destruct H1 as (e & g1 & ->). reflexivity.
    + rewrite H1. exact IH.
Qed.

Lemma search_education (s : string) :
  option_map (group 2) (search education_re s)
  = option_map (fun rest => Scan.upto_boundary (Scan.skip_colon rest))
               (Scan.find_word ["education"] s).
Proof.
  induction s as [|c s IH]; rewrite search_unfold, find_word_unfold.
  - pose proof (education_here EmptyString) as H0.
    destruct (Scan.first_of ["education"] EmptyString) as [rest|].
    + destruct H0 as (e & g1 & ->). reflexivity.
    + rewrite H0. reflexivity.
  - pose proof (education_here (String c s)) as H1.
    destruct (Scan.first_of ["education"] (String c s)) as [rest|].
    + destruct H1 as (e & g1 & ->). reflexivity.
    + rewrite H1. exact IH.
Qed.

End ReFacts.

Lemma extract_summary_scan (text : string) : _extract_summary text = Scan.summary text.
Proof.
  unfold _extract_summary, Scan.summary.
  pose proof (ReFacts.search_summary text) as H.
  destruct (Re.search summary_re text), (Scan.find_word ["summary"; "objective"] text);
    simpl in H; try discriminate; [|reflexivity].
  injection H as ->. reflexivity.
Qed.

Lemma extract_education_scan (text : string) :
  _extract_education text = Scan.education text.
Proof.
  unfold _extract_education, Scan.education.
  pose proof (ReFacts.search_education text) as H.
  destruct (Re.search education_re text), (Scan.find_word ["education"] text);
    simpl in H; try discriminate; [|reflexivity].
  injection H as ->. reflexivity.
Qed.

(** ** The summary *)

Lemma lower_cons (c : ascii) (s : string) :
  Py.lower (String c s) = String (Py.lower_char c) (Py.lower s).
Proof. reflexivity. Qed.

Lemma lower_append (a b : string) : Py.lower (a ++ b) = Py.lower a ++ Py.lower b.
Proof.
  induction a as [|c a IH]; [reflexivity|].
  rewrite append_cons, !lower_cons, append_cons, IH. reflexivity.
Qed.

(** The word found is in the text, in some letter case, right before what
    is returned. *)
Lemma after_word_Some (w s rest : string) :
  Scan.after_word w s = Some rest ->
  exists kw, s = kw ++ rest /\ Py.lower kw = Py.lower w.
Proof.
  revert s. induction w as [|a w IH]; intros s H.
  - injection H as ->. exists EmptyString. split; reflexivity.
  - destruct s as [|b s]; [discriminate|]. cbn [Scan.after_word] in H.
    destruct (Ascii.eqb_spec (Py.lower_char b) (Py.lower_char a)) as [Hc|];
      [|discriminate].
    destruct (IH s H) as (kw & -> & Hkw).
    exists (String b kw). rewrite append_cons, !lower_cons, Hc, Hkw.
    split; reflexivity.
Qed.

Lemma after_word_None (w s : string) :
  Py.lower w = w ->
  Py.startswith (Py.lower s) w = false ->
  Scan.after_word w s = None.
Proof.
  revert s. induction w as [|a w IH]; intros s Hw H; [discriminate|].
  rewrite lower_cons in Hw. injection Hw as Ha Hw.
  destruct s as [|b s]; [reflexivity|].
  rewrite lower_cons in H. cbn [Py.startswith Scan.after_word] in *.
  rewrite Ha, Ascii.eqb_sym.
  destruct (Ascii.eqb a (Py.lower_char b)); [|reflexivity].
  apply IH; assumption.
Qed.

Lemma find_word_Some (ws : list string) (s rest : string) :
  Scan.find_word ws s = Some rest ->
  exists pre kw w,
    s = pre ++ kw ++ rest
    /\ In w ws
    /\ Py.lower kw = Py.lower w
    /\ (forall p1 p2, pre = p1 ++ p2 -> p2 <> EmptyString ->
                      Scan.first_of ws (p2 ++ kw ++ rest) = None).
Proof.
  assert (forall t, Scan.first_of ws t = Some rest ->
                    exists kw w, t = kw ++ rest /\ In w ws /\ Py.lower kw = Py.lower w)
    as Hfirst.
  { induction ws as [|w ws IH]; intros t H; [discriminate|].
    cbn [Scan.first_of] in H.
    destruct (Scan.after_word w t) as [r|] eqn:E.
    - injection H as ->. destruct (after_word_Some _ _ _ E) as (kw & -> & Hkw).
      exists kw, w. repeat split; [left; reflexivity | exact Hkw].
    - destruct (IH t H) as (kw & w' & -> & Hin & Hkw).
      exists kw, w'. repeat split; [right; exact Hin | exact Hkw]. }
  assert (forall p1 p2 : string, EmptyString = p1 ++ p2 -> p2 <> EmptyString -> False)
    as Hnil.
  { intros p1 p2 H Hp2. destruct p1, p2; try discriminate. congruence. }
  induction s as [|c s IH]; rewrite ReFacts.find_word_unfold; intros H.
  - destruct (Scan.first_of ws EmptyString) eqn:E; [|discriminate].
    rewrite <- H in *. destruct (Hfirst _ E) as (kw & w & Hs & Hin & Hkw).
    exists EmptyString, kw, w. repeat split; try assumption.
    intros p1 p2 Hp Hp2. destruct (Hnil p1 p2 Hp Hp2).
  - destruct (Scan.first_of ws (String c s)) eqn:E.
    + rewrite <- H in *. destruct (Hfirst _ E) as (kw & w & Hs & Hin & Hkw).
      exists EmptyString, kw, w. repeat split; try assumption.
      intros p1 p2 Hp Hp2. destruct (Hnil p1 p2 Hp Hp2).
    + destruct (IH H) as (pre & kw & w & -> & Hin & Hkw & Hleft).
      exists (String c pre), kw, w. repeat split; try assumption.
      intros p1 p2 Hp Hp2. destruct p1 as [|x p1].
      * rewrite append_nil_l in Hp. rewrite <- Hp, append_cons. exact E.
      * rewrite append_cons in Hp. injection Hp as _ Hp. apply (Hleft p1 p2 Hp Hp2).
Qed.

Lemma find_word_None (ws : list string) (s : string) :
  (forall w, In w ws -> Py.lower w = w /\ Py.contains w (Py.lower s) = false) ->
  Scan.find_word ws s = None.
Proof.
  assert (forall t,
             (forall w, In w ws -> Py.lower w = w /\ Py.startswith (Py.lower t) w = false) ->
             Scan.first_of ws t = None) as Hfirst.
  { induction ws as [|w ws IH]; intros t H; [reflexivity|].
    cbn [Scan.first_of].
    destruct (H w (or_introl eq_refl)) as [Hw Hs].
    rewrite (after_word_None w t Hw Hs). apply IH.
    intros w' Hin. apply H. right. exact Hin. }
  induction s as [|c s IH]; intros H; rewrite ReFacts.find_word_unfold.
  - rewrite Hfirst; [reflexivity|].
    intros w Hin. destruct (H w Hin) as [Hw Hc]. split; [exact Hw|].
    rewrite contains_unfold in Hc. apply orb_false_elim in Hc as [Hc _]. exact Hc.
  - rewrite Hfirst.
    + apply IH. intros w Hin. destruct (H w Hin) as [Hw Hc]. split; [exact Hw|].
      rewrite lower_cons, contains_cons in Hc.
      apply orb_false_elim in Hc as [_ Hc]. exact Hc.
    + intros w Hin. destruct (H w Hin) as [Hw Hc]. split; [exact Hw|].
      rewrite contains_unfold in Hc. apply orb_false_elim in Hc as [Hc _]. exact Hc.
Qed.

(** The capture ends at a boundary, and at the first one. *)
Lemma upto_boundary_split (s : string) :
  exists rest,
    s = Scan.upto_boundary s ++ rest
    /\ Scan.boundary rest = true
    /\ (forall a b, Scan.upto_boundary s = a ++ b -> b <> EmptyString ->
                    Scan.boundary (b ++ rest) = false).
Proof.
  induction s as [|c s IH].
  - exists EmptyString. cbn. repeat split.
    intros a b H Hb. destruct a, b; try discriminate. congruence.
  - unfold Scan.upto_boundary; fold Scan.upto_boundary.
    destruct (Scan.boundary (String c s)) eqn:E.
    + exists (String c s). repeat split; [exact E|].
      intros a b H Hb. destruct a, b; try discriminate. congruence.
    + destruct IH as (rest & Hs & Hrest & Hmin).
      exists rest. split; [rewrite append_cons, <- Hs; reflexivity|].
      split; [exact Hrest|].
      intros a b H Hb. destruct a as [|x a].
      * rewrite append_nil_l in H. rewrite <- H, append_cons, <- Hs. exact E.
      * rewrite append_cons in H. injection H as _ H. apply (Hmin a b H Hb).
Qed.

(** C5, as the code has it: the summary is the stripped capture of the
    leftmost match of the word "summary" or "objective", letter case aside,
    wherever the word stands in the text; a colon after the word and the
    white space that follows are passed over, and the capture runs to the
    first place where a newline, word characters and a colon come next, or
    where the text ends (a last newline aside).  When neither word occurs
    in the text the summary is empty. *)
Theorem summary_is_capture_after_keyword :
  (forall text,
      _extract_summary text =
      match Scan.find_word ["summary"; "objective"] text with
      | Some rest => Py.strip (Scan.upto_boundary (Py.lstrip (Scan.skip_colon rest)))
      | None => EmptyString
      end)
  /\ (forall text rest,
        Scan.find_word ["summary"; "objective"] text = Some rest ->
        exists pre kw,
          text = pre ++ kw ++ rest
          /\ (Py.lower kw = "summary" \/ Py.lower kw = "objective")
          /\ (forall p1 p2, pre = p1 ++ p2 -> p2 <> EmptyString ->
                            Scan.first_of ["summary"; "objective"] (p2 ++ kw ++ rest)
                            = None))
  /\ (forall s, exists rest,
        s = Scan.upto_boundary s ++ rest
        /\ Scan.boundary rest = true
        /\ (forall a b, Scan.upto_boundary s = a ++ b -> b <> EmptyString ->
                        Scan.boundary (b ++ rest) = false))
  /\ (forall text,
        Py.contains "summary" (Py.lower text) = false ->
        Py.contains "objective" (Py.lower text) = false ->
        _extract_summary text = EmptyString)
  /\ _extract_summary "a summary b" = "b".
Proof.
  split; [|split; [|split; [|split]]].
  - apply extract_summary_scan.
  - intros text rest H.
    destruct (find_word_Some _ _ _ H) as (pre & kw & w & Ht & Hin & Hkw & Hleft).
    exists pre, kw. repeat split; [exact Ht | | exact Hleft].
    destruct Hin as [<- | [<- | []]]; [left | right]; exact Hkw.
  - apply upto_boundary_split.
  - intros text Hs Ho. rewrite extract_summary_scan. unfold Scan.summary.
    rewrite find_word_None; [reflexivity|].
    intros w [<- | [<- | []]]; split; (reflexivity || assumption).
  - vm_compute. reflexivity.
Qed.

Lemma summary_is_capture_after_keyword_witness :
  _extract_summary ("Name: Ann Lee" ++ nl ++ "Education: BS") = EmptyString.
Proof.
  apply (proj1 (proj2 (proj2 (proj2 summary_is_capture_after_keyword))));
    reflexivity.
Defined.

(** C5 as stated fails: a text with no line that begins "summary:" or
    "objective:" can still have a summary that is not empty. *)
Lemma summary_without_label_line_counterexample :
  ~ (forall text,
        Spec.has_summary_line text = false -> _extract_summary text = EmptyString).
Proof.
  intros H.
  specialize (H ("Professional Summary" ++ nl ++ "Engineer with ten years of practice."
                 ++ nl ++ "Education: BS") eq_refl).
  vm_compute in H. discriminate H.
Qed.

(** * Further properties of the code *)

(** ** Stripping and searching *)

Lemma rstrip_cons (c : ascii) (s : string) :
  Py.rstrip (String c s) =
  match Py.rstrip s with
  | EmptyString => if Py.isspace c then EmptyString else String c EmptyString
  | r => String c r
  end.
Proof. reflexivity. Qed.

Lemma rstrip_idem (s : string) : Py.rstrip (Py.rstrip s) = Py.rstrip s.
Proof.
  induction s as [|c s IH]; [reflexivity|].
  rewrite rstrip_cons. destruct (Py.rstrip s) as [|d r] eqn:E.
  - destruct (Py.isspace c) eqn:Hc; [reflexivity|].
    rewrite rstrip_cons. cbn [Py.rstrip]. rewrite Hc. reflexivity.
  - rewrite rstrip_cons, IH. reflexivity.
Qed.

Lemma lstrip_idem (s : string) : Py.lstrip (Py.lstrip s) = Py.lstrip s.
Proof.
  induction s as [|c s IH]; [reflexivity|]. cbn [Py.lstrip].
  destruct (Py.isspace c) eqn:Hc; [exact IH|]. cbn [Py.lstrip]. rewrite Hc. reflexivity.
Qed.

Lemma lstrip_rstrip (s : string) : Py.lstrip (Py.rstrip s) = Py.rstrip (Py.lstrip s).
Proof.
  induction s as [|c s IH]; [reflexivity|].
  rewrite rstrip_cons. cbn [Py.lstrip].
  destruct (Py.isspace c) eqn:Hc.
  - rewrite <- IH. destruct (Py.rstrip s) as [|d r]; [reflexivity|].
    cbn [Py.lstrip]. rewrite Hc. reflexivity.
  - rewrite rstrip_cons.
    destruct (Py.rstrip s) as [|d r]; rewrite ?Hc; cbn [Py.lstrip]; rewrite Hc;
      reflexivity.
Qed.

Lemma strip_idem (s : string) : Py.strip (Py.strip s) = Py.strip s.
Proof.
  unfold Py.strip. rewrite lstrip_rstrip, lstrip_idem, rstrip_idem. reflexivity.
Qed.

Lemma lstrip_suffix (s : string) : exists a, s = a ++ Py.lstrip s.
Proof.
  induction s as [|c s [a IH]]; [exists EmptyString; reflexivity|].
  cbn [Py.lstrip]. destruct (Py.isspace c).
  - exists (String c a). rewrite append_cons, <- IH. reflexivity.
  - exists EmptyString. reflexivity.
Qed.

Lemma rstrip_prefix (s : string) : exists b, s = Py.rstrip s ++ b.
Proof.
  induction s as [|c s [b IH]]; [exists EmptyString; reflexivity|].
  rewrite rstrip_cons. destruct (Py.rstrip s) as [|d r].
  - rewrite append_nil_l in IH. destruct (Py.isspace c).
    + exists (String c s). reflexivity.
    + exists s. reflexivity.
  - exists b. rewrite append_cons, <- IH. reflexivity.
Qed.

(** What [strip] returns stands in the text as it is. *)
Lemma strip_inside (s : string) : exists a b, s = a ++ Py.strip s ++ b.
Proof.
  unfold Py.strip. destruct (lstrip_suffix s) as [a Ha].
  destruct (rstrip_prefix (Py.lstrip s)) as [b Hb].
  exists a, b. rewrite <- Hb. exact Ha.
Qed.

Lemma contains_iff (sub s : string) :
  Py.contains sub s = true <-> exists a b, s = a ++ sub ++ b.
Proof.
  split.
  - induction s as [|c s IH]; rewrite contains_unfold, orb_true_iff.
    + intros [H|H]; [|discriminate].
      apply startswith_iff in H as [r H]. exists EmptyString, r. exact H.
    + intros [H|H].
      * apply startswith_iff in H as [r H]. exists EmptyString, r. exact H.
      * destruct (IH H) as (a & b & ->). exists (String c a), b. reflexivity.
  - intros (a & b & ->). apply contains_append.
Qed.

Lemma contains_inside (sub a m b : string) :
  Py.contains sub (a ++ m ++ b) = false -> Py.contains sub m = false.
Proof.
  intros H. destruct (Py.contains sub m) eqn:E; [|reflexivity].
  apply contains_iff in E as (x & y & ->).
  rewrite <- H. symmetry.
  replace (a ++ (x ++ sub ++ y) ++ b) with ((a ++ x) ++ sub ++ (y ++ b))
    by (rewrite !append_assoc; reflexivity).
  apply contains_append.
Qed.

Lemma contains_strip (sub s : string) :
  Py.contains sub s = false -> Py.contains sub (Py.strip s) = false.
Proof.
  intros H. destruct (strip_inside s) as (a & b & Hs). rewrite Hs in H.
  exact (contains_inside _ _ _ _ H).
Qed.

(** ** Splitting at a single character *)

Section SplitChar.

Variable a : ascii.
Local Abbreviation sep := (String a EmptyString).

Lemma contains_char_append (x y : string) :
  Py.contains sep (x ++ y) = Py.contains sep x || Py.contains sep y.
Proof.
  induction x as [|c x IH].
  - rewrite append_nil_l. destruct y; reflexivity.
  - rewrite append_cons, !contains_cons, IH.
    cbn [Py.startswith]. rewrite !andb_true_r, orb_assoc. reflexivity.
Qed.

(** Splitting a text that has a separator at a known place. *)
Lemma split_go_append (p rest cur : string) :
  Py.split_go sep 0 cur (p ++ String a rest)
  = (Py.split_go sep 0 cur p ++ Py.split_go sep 0 EmptyString rest)%list.
Proof.
  revert cur. induction p as [|c p IH]; intros cur.
  - rewrite append_nil_l. cbn [Py.split_go Py.startswith].
    rewrite Ascii.eqb_refl. cbn. destruct rest; reflexivity.
  - rewrite append_cons. cbn [Py.split_go Py.startswith].
    destruct (Ascii.eqb a c); cbn [andb String.length Nat.sub].
    + rewrite IH. reflexivity.
    + apply IH.
Qed.

(** No piece holds the separator. *)
Lemma split_go_pieces (s cur : string) :
  Py.contains sep (Py.rev cur) = false ->
  Forall (fun piece => Py.contains sep piece = false) (Py.split_go sep 0 cur s).
Proof.
  revert cur. induction s as [|c s IH]; intros cur Hcur.
  - constructor; [exact Hcur | constructor].
  - cbn [Py.split_go Py.startswith].
    destruct (Ascii.eqb a c) eqn:E; cbn [andb String.length Nat.sub].
    + constructor; [exact Hcur | apply IH; reflexivity].
    + apply IH. rewrite rev_cons, contains_char_append, Hcur.
      cbn. rewrite E. reflexivity.
Qed.

End SplitChar.

(** ** The text of a document *)

Lemma join_cons_cons (sep p q : string) (rest : list string) :
  Py.join sep (p :: q :: rest) = p ++ sep ++ Py.join sep (q :: rest).
Proof. reflexivity. Qed.

Lemma split_join_lines (pages : list string) :
  pages <> [] ->
  Py.split nl (Py.join nl pages) = flat_map (Py.split nl) pages.
Proof.
  induction pages as [|p [|q rest] IH]; intros Hne; [congruence | |].
  - cbn [Py.join flat_map]. rewrite app_nil_r. reflexivity.
  - rewrite join_cons_cons. unfold nl at 2. rewrite append_cons, append_nil_l.
    unfold Py.split at 1, nl at 1. rewrite split_go_append.
    change (flat_map (Py.split nl) (p :: q :: rest))
      with (Py.split nl p ++ flat_map (Py.split nl) (q :: rest))%list.
    rewrite <- IH by discriminate. reflexivity.
Qed.

(** X1: the lines of the text taken from a document with at least one page
    are the lines of its pages, page after page: a page break becomes a
    line break, and nothing else is added or lost. *)
Theorem text_lines_are_page_lines (env : Env) (pdf_path : string) (pages : list string) :
  pdf_pages env pdf_path = Ok pages ->
  pages <> [] ->
  exists text,
    _extract_text env pdf_path = Ok text
    /\ Py.split nl text = flat_map (Py.split nl) pages.
Proof.
  intros Hpages Hne. exists (Py.join nl pages). split.
  - unfold _extract_text. rewrite Hpages. reflexivity.
  - apply split_join_lines, Hne.
Qed.

Lemma text_lines_are_page_lines_witness :
  exists text,
    _extract_text Sample.two_pages "cv.pdf" = Ok text
    /\ Py.split nl text = ["Education:"; "Bachelor of Science"; "Leeds";
                           "Bachelor of Science"; "York"].
Proof.
  apply (text_lines_are_page_lines Sample.two_pages "cv.pdf" Sample.degrees);
    [reflexivity | discriminate].
Defined.

(** ** The two text sections *)

(** X2: the summary never begins or ends with white space: stripping it
    again changes nothing. *)
Theorem summary_is_stripped (text : string) :
  Py.strip (_extract_summary text) = _extract_summary text.
Proof.
  unfold _extract_summary.
  destruct (Re.search summary_re text); [apply strip_idem | reflexivity].
Qed.

(** X3: every education line is a single line, not empty, and neither
    begins nor ends with white space. *)
Theorem education_lines_are_clean (text line : string) :
  In line (_extract_education text) ->
  line <> EmptyString
  /\ Py.strip line = line
  /\ Py.contains nl line = false.
Proof.
  unfold _extract_education.
  destruct (Re.search education_re text) as [m|]; [|intros []].
  intros Hin. apply filter_In in Hin as [Hin Htruthy].
  apply in_map_iff in Hin as (piece & <- & Hpiece).
  split; [apply truthy_nonempty, Htruthy|]. split; [apply strip_idem|].
  apply contains_strip.
  pose proof (split_go_pieces "010" (Re.group 2 m) EmptyString eq_refl) as Hall.
  rewrite List.Forall_forall in Hall. apply Hall, Hpiece.
Qed.

Lemma education_lines_are_clean_witness :
  "BS Computer Science" <> EmptyString
  /\ Py.strip "BS Computer Science" = "BS Computer Science"
  /\ Py.contains nl "BS Computer Science" = false.
Proof.
  apply (education_lines_are_clean
           ("Summary: Built scalable systems." ++ nl ++ "Education: BS Computer Science")).
  vm_compute. left. reflexivity.
Defined.

(** X4: the education lines are the non-empty stripped lines of what
    follows the leftmost "education" of the text, letter case aside and
    wherever the word stands, a colon after it passed over, up to the first
    place where a newline, word characters and a colon come next or where
    the text ends.  No "education" in the text, no education lines. *)
Theorem education_is_lines_after_keyword :
  (forall text,
      _extract_education text =
      match Scan.find_word ["education"] text with
      | Some rest =>
          List.filter Py.truthy
            (List.map Py.strip
               (Py.split nl (Scan.upto_boundary (Scan.skip_colon rest))))
      | None => []
      end)
  /\ (forall text rest,
        Scan.find_word ["education"] text = Some rest ->
        exists pre kw,
          text = pre ++ kw ++ rest
          /\ Py.lower kw = "education"
          /\ (forall p1 p2, pre = p1 ++ p2 -> p2 <> EmptyString ->
                            Scan.first_of ["education"] (p2 ++ kw ++ rest) = None))
  /\ (forall text,
        Py.contains "education" (Py.lower text) = false ->
        _extract_education text = []).
Proof.
  split; [|split].
  - apply extract_education_scan.
  - intros text rest H.
    destruct (find_word_Some _ _ _ H) as (pre & kw & w & Ht & Hin & Hkw & Hleft).
    exists pre, kw. repeat split; [exact Ht | | exact Hleft].
    destruct Hin as [<- | []]. exact Hkw.
  - intros text Hnone. rewrite extract_education_scan. unfold Scan.education.
    rewrite find_word_None; [reflexivity|].
    intros w [<- | []]. split; [reflexivity | exact Hnone].
Qed.

Lemma education_is_lines_after_keyword_witness :
  _extract_education ("Summary: ten years of Python" ++ nl ++ "Skills: Java") = [].
Proof.
  apply (proj2 (proj2 education_is_lines_after_keyword)). reflexivity.
Defined.

(** ** More on the years of experience *)

Section ExperienceMore.

Import Datetime DatetimeFacts.

Lemma years_between_few (dates : list datetime) :
  (List.length dates < 2)%nat -> years_between dates = Ok 0%Z.
Proof.
  intros Hfew. destruct dates as [|d [|d' l]]; [reflexivity | | simpl in Hfew; lia].
  unfold years_between. cbn [sorted insert rbind List.last].
  rewrite sub_days_same by reflexivity. cbn [rbind].
  rewrite Z.sub_diag. reflexivity.
Qed.

(** The length check made before the [None]s are dropped does not change
    what comes out. *)
Lemma experience_years_between (env : Env) (doc : Doc) :
  _calculate_experience env doc = years_between (valid_dates env doc).
Proof.
  unfold _calculate_experience. fold (valid_dates env doc).
  destruct (List.length (collect_dates env (ents doc)) <? 2)%nat eqn:E; [|reflexivity].
  symmetry. apply years_between_few.
  apply Nat.ltb_lt in E.
  pose proof (only_dates_length (collect_dates env (ents doc))) as Hlen.
  unfold valid_dates. lia.
Qed.

Lemma uniform_or_mixed (l : list datetime) :
  (exists b, uniform b l)
  \/ (exists x y, In x l /\ In y l /\ aware x <> aware y).
Proof.
  induction l as [|x l IH]; [left; exists true; constructor|].
  destruct IH as [[b Hb] | (y & z & Hy & Hz & Hne)].
  - destruct l as [|y l]; [left; exists (aware x); repeat constructor|].
    destruct (Bool.bool_dec (aware x) b) as [Hx | Hx].
    + left. exists b. constructor; assumption.
    + right. exists x, y. repeat split; [left; reflexivity | right; left; reflexivity|].
      apply Forall_cons_iff in Hb as [Hy _]. congruence.
  - right. exists y, z. repeat split; [right; exact Hy | right; exact Hz | exact Hne].
Qed.

(** All naive or all aware: a number of years, never negative. *)
Lemma experience_uniform (env : Env) (doc : Doc) (b : bool) :
  uniform b (valid_dates env doc) ->
  exists n, _calculate_experience env doc = Ok n /\ (0 <= n)%Z.
Proof.
  intros Hb.
  destruct (Nat.lt_ge_cases (List.length (valid_dates env doc)) 2) as [Hfew | Hmany].
  - exists 0%Z. split; [apply experience_few_dates, Hfew | lia].
  - destruct (experience_span env doc b Hmany Hb)
      as (lo & hi & _ & _ & _ & Hcalc & Hpos).
    eauto.
Qed.

Lemma experience_Ok_uniform (env : Env) (doc : Doc) (n : Z) :
  _calculate_experience env doc = Ok n ->
  (0 <= n)%Z /\ exists b, uniform b (valid_dates env doc).
Proof.
  intros H. destruct (uniform_or_mixed (valid_dates env doc))
    as [[b Hb] | (x & y & Hx & Hy & Hne)].
  - destruct (experience_uniform env doc b Hb) as (n' & Hn' & Hpos).
    rewrite H in Hn'. injection Hn' as ->. eauto.
  - rewrite (experience_mixed env doc x y Hx Hy Hne) in H. discriminate.
Qed.

Lemma experience_Raise_mixed (env : Env) (doc : Doc) (e : string) :
  _calculate_experience env doc = Raise e <->
  e = compare_error
  /\ exists x y, In x (valid_dates env doc) /\ In y (valid_dates env doc)
                 /\ aware x <> aware y.
Proof.
  split.
  - intros H. destruct (uniform_or_mixed (valid_dates env doc))
      as [[b Hb] | (x & y & Hx & Hy & Hne)].
    + destruct (experience_uniform env doc b Hb) as (n & Hn & _).
      rewrite H in Hn. discriminate.
    + rewrite (experience_mixed env doc x y Hx Hy Hne) in H.
      injection H as <-. eauto 6.
  - intros (-> & x & y & Hx & Hy & Hne). exact (experience_mixed env doc x y Hx Hy Hne).
Qed.

End ExperienceMore.

(** X5: the years of experience depend on the valid dates only.  Entities
    that are not dates, date texts of 4 characters or fewer, texts the
    parser rejects or cannot read change nothing, and neither does the
    length check made before the [None]s are filtered out. *)
Theorem experience_depends_on_valid_dates (env env' : Env) (doc doc' : Doc) :
  valid_dates env doc = valid_dates env' doc' ->
  _calculate_experience env doc = _calculate_experience env' doc'.
Proof. intros H. rewrite !experience_years_between, H. reflexivity. Qed.

Lemma experience_depends_on_valid_dates_witness :
  _calculate_experience Sample.dated Sample.naive_dates
  = _calculate_experience Sample.dated Cases.two_dates.
Proof. apply experience_depends_on_valid_dates. reflexivity. Defined.

(** X6: the calculation raises exactly when a naive date and an aware date
    are both among the valid dates, and then with the message of Python's
    refused comparison. *)
Theorem experience_raises_exactly_on_mixed_dates (env : Env) (doc : Doc) (e : string) :
  _calculate_experience env doc = Raise e <->
  e = "can't compare offset-naive and offset-aware datetimes"
  /\ exists x y, In x (valid_dates env doc) /\ In y (valid_dates env doc)
                 /\ Datetime.aware x <> Datetime.aware y.
Proof. apply experience_Raise_mixed. Qed.

(** X7: a record that [parse_resume] returns never has a negative
    [total_experience]. *)
Theorem total_experience_is_never_negative (env : Env) (pdf_path : string)
        (r : ResumeRecord) :
  parse_resume env pdf_path = Ok r -> (0 <= total_experience r)%Z.
Proof.
  intros H. apply parse_resume_Ok in H as (pages & doc & n & _ & _ & Hn & ->).
  apply experience_Ok_uniform in Hn as [Hpos _]. exact Hpos.
Qed.

Lemma total_experience_is_never_negative_witness :
  exists r, parse_resume Cases.dated_cv "cv.pdf" = Ok r /\ (0 <= total_experience r)%Z.
Proof.
  eexists. split; [reflexivity|].
  apply (total_experience_is_never_negative Cases.dated_cv "cv.pdf"). reflexivity.
Defined.

(** X8: with two valid dates or more, all naive or all aware, the result is
    the number of whole 365-day years in the days between the earliest and
    the latest of them. *)
Theorem experience_whole_years_between_extremes (env : Env) (doc : Doc) (b : bool) :
  (2 <= List.length (valid_dates env doc))%nat ->
  Datetime.uniform b (valid_dates env doc) ->
  exists earliest latest n,
    In earliest (valid_dates env doc)
    /\ In latest (valid_dates env doc)
    /\ Forall (fun d => Datetime.earlier earliest d /\ Datetime.earlier d latest)
              (valid_dates env doc)
    /\ _calculate_experience env doc = Ok n
    /\ (let days := (Datetime.instant latest - Datetime.instant earliest)
                     / Datetime.us_per_day in
        0 <= n /\ 365 * n <= days < 365 * n + 365)%Z.
Proof.
  intros Hmany Hb.
  destruct (experience_span env doc b Hmany Hb)
    as (lo & hi & Hlo & Hhi & Hall & Hcalc & Hpos).
  exists lo, hi, ((Datetime.instant hi - Datetime.instant lo) / Datetime.us_per_day / 365)%Z.
  repeat split; try assumption.
  - apply Z.mul_div_le. lia.
  - pose proof (Z.mul_succ_div_gt
                  ((Datetime.instant hi - Datetime.instant lo) / Datetime.us_per_day)
                  365 ltac:(lia)).
    lia.
Qed.

Lemma experience_whole_years_between_extremes_witness :
  exists earliest latest n,
    In earliest (valid_dates Sample.dated Sample.naive_dates)
    /\ In latest (valid_dates Sample.dated Sample.naive_dates)
    /\ Forall (fun d => Datetime.earlier earliest d /\ Datetime.earlier d latest)
              (valid_dates Sample.dated Sample.naive_dates)
    /\ _calculate_experience Sample.dated Sample.naive_dates = Ok n
    /\ (let days := (Datetime.instant latest - Datetime.instant earliest)
                     / Datetime.us_per_day in
        0 <= n /\ 365 * n <= days < 365 * n + 365)%Z.
Proof.
  apply (experience_whole_years_between_extremes Sample.dated Sample.naive_dates false).
  - simpl. lia.
  - repeat constructor.
Defined.

(** X9: with fewer than two valid dates the result is 0, also when a text
    parsed to [None] brought the unfiltered list to two entries. *)
Theorem experience_zero_below_two_dates (env : Env) (doc : Doc) :
  (List.length (valid_dates env doc) < 2)%nat ->
  _calculate_experience env doc = Ok 0%Z.
Proof.
  intros H. rewrite experience_years_between. apply years_between_few, H.
Qed.

Lemma experience_zero_below_two_dates_witness :
  _calculate_experience Sample.dated
    (mk_doc [] [Sample.date "a while"; Sample.date "June 2021"] [] []) = Ok 0%Z.
Proof. apply experience_zero_below_two_dates. simpl. lia. Defined.

(** X10: the order in which the valid dates were found does not matter to
    the years of experience: two runs whose valid dates are the same up to
    their order give the same number of years, or fail alike.  The dates
    are compared as the parser returned them, call by call, so nothing is
    assumed on what the parser makes of a text at another time. *)
Theorem experience_ignores_date_order (env env' : Env) (doc doc' : Doc) :
  Permutation (valid_dates env doc) (valid_dates env' doc') ->
  _calculate_experience env doc = _calculate_experience env' doc'.
Proof.
  intros Hperm.
  destruct (uniform_or_mixed (valid_dates env doc))
    as [[b Hb] | (x & y & Hx & Hy & Hne)].
  - assert (Datetime.uniform b (valid_dates env' doc')) as Hb'
        by (apply (Permutation_Forall Hperm), Hb).
    pose proof (Permutation_length Hperm) as Hlen.
    destruct (Nat.lt_ge_cases (List.length (valid_dates env doc)) 2) as [Hfew | Hmany].
    + rewrite !experience_few_dates by lia. reflexivity.
    + destruct (experience_span env doc b Hmany Hb)
        as (lo & hi & Hlo & Hhi & Hall & -> & _).
      destruct (experience_span env' doc' b ltac:(lia) Hb')
        as (lo' & hi' & Hlo' & Hhi' & Hall' & -> & _).
      rewrite List.Forall_forall in Hall, Hall'.
      pose proof (Permutation_in _ Hperm Hlo) as Hlo_in'.
      pose proof (Permutation_in _ Hperm Hhi) as Hhi_in'.
      pose proof (Permutation_in _ (Permutation_sym Hperm) Hlo') as Hlo'_in.
      pose proof (Permutation_in _ (Permutation_sym Hperm) Hhi') as Hhi'_in.
      destruct (Hall _ Hlo'_in) as [H1 _]. destruct (Hall _ Hhi'_in) as [_ H2].
      destruct (Hall' _ Hlo_in') as [H3 _]. destruct (Hall' _ Hhi_in') as [_ H4].
      unfold Datetime.earlier in *.
      replace (Datetime.instant lo') with (Datetime.instant lo) by lia.
      replace (Datetime.instant hi') with (Datetime.instant hi) by lia.
      reflexivity.
  - rewrite (experience_mixed env doc x y Hx Hy Hne).
    rewrite (experience_mixed env' doc' x y); [reflexivity | | | exact Hne].
    + apply (Permutation_in _ Hperm Hx).
    + apply (Permutation_in _ Hperm Hy).
Qed.

Lemma experience_ignores_date_order_witness :
  Permutation (valid_dates Sample.dated Cases.two_dates)
              (valid_dates Cases.dated_cv Cases.two_dates_swapped)
  /\ _calculate_experience Sample.dated Cases.two_dates
     = _calculate_experience Cases.dated_cv Cases.two_dates_swapped.
Proof.
  assert (H : Permutation (valid_dates Sample.dated Cases.two_dates)
                          (valid_dates Cases.dated_cv Cases.two_dates_swapped))
    by apply perm_swap.
  split; [exact H | apply experience_ignores_date_order, H].
Defined.

(** X11: [parse_resume] fails in three ways only: the text cannot be taken
    from the document, the pipeline refuses the text, or the valid dates
    mix naive and aware values; the message is that of the failing step. *)
Theorem parse_resume_fails_three_ways (env : Env) (pdf_path e : string) :
  parse_resume env pdf_path = Raise e <->
  pdf_pages env pdf_path = Raise e
  \/ (exists pages,
         pdf_pages env pdf_path = Ok pages
         /\ nlp env (Py.join nl pages) = Raise e)
  \/ (exists pages doc,
         pdf_pages env pdf_path = Ok pages
         /\ nlp env (Py.join nl pages) = Ok doc
         /\ e = "can't compare offset-naive and offset-aware datetimes"
         /\ exists x y, In x (valid_dates env doc) /\ In y (valid_dates env doc)
                        /\ Datetime.aware x <> Datetime.aware y).
Proof.
  split.
  - unfold parse_resume, _extract_text, rbind.
    destruct (pdf_pages env pdf_path) as [pages|e1] eqn:Hp;
      [|intros [= <-]; left; reflexivity].
    destruct (nlp env (Py.join nl pages)) as [doc|e2] eqn:Hd;
      [|intros [= <-]; right; left; exists pages; split; [reflexivity | exact Hd]].
    destruct (_calculate_experience env doc) as [n|e3] eqn:Hcalc; [discriminate|].
    intros [= <-]. apply experience_Raise_mixed in Hcalc as [-> Hmixed].
    right. right. exists pages, doc.
    split; [reflexivity|]. split; [exact Hd|]. split; [reflexivity | exact Hmixed].
  - unfold parse_resume, _extract_text, rbind.
    intros [H | [(pages & H1 & H2) | (pages & doc & H1 & H2 & He & Hmixed)]].
    + rewrite H. reflexivity.
    + rewrite H1, H2. reflexivity.
    + rewrite H1, H2.
      assert (_calculate_experience env doc = Raise e) as ->
          by (apply experience_Raise_mixed; split; assumption).
      reflexivity.
Qed.

Lemma experience_raises_exactly_on_mixed_dates_witness :
  _calculate_experience Sample.dated Sample.naive_and_aware
  = Raise "can't compare offset-naive and offset-aware datetimes".
Proof.
  apply (proj2 (experience_raises_exactly_on_mixed_dates
                  Sample.dated Sample.naive_and_aware _)).
  split; [reflexivity|].
  exists Sample.january_2015, Sample.january_2012_est.
  split; [left; reflexivity|]. split; [right; left; reflexivity | discriminate].
Defined.

Lemma parse_resume_fails_three_ways_witness :
  parse_resume Cases.too_long "cv.pdf"
  = Raise "[E088] Text of length 1000001 exceeds maximum of 1000000.".
Proof.
  apply (proj2 (parse_resume_fails_three_ways Cases.too_long "cv.pdf" _)).
  right. left. exists ["a very long text"]. split; reflexivity.
Defined.

(** ** More on the entity extractors *)

Lemma companies_loop_current (ss : list Sent) (c : string) :
  fst (companies_loop ss) = Some c ->
  exists sent,
    In sent ss
    /\ Py.contains " at " (sent_text sent) = true
    /\ c = company_of (sent_text sent).
Proof.
  induction ss as [|x l IH] using rev_ind; [discriminate|].
  rewrite companies_loop_snoc, companies_step_current.
  destruct (Py.contains " at " (sent_text x)) eqn:E.
  - intros [= <-]. exists x. split; [apply in_or_app; right; left; reflexivity|].
    split; [exact E | reflexivity].
  - intros H. destruct (IH H) as (sent & Hin & Hat & Hc).
    exists sent. split; [apply in_or_app; left; exact Hin | split; assumption].
Qed.

(** X12: every company extracted is not empty, has no white space at its
    ends and no "(" in it, and is what [company_of] makes of a sentence of
    the document that contains " at ". *)
Theorem companies_are_clean_names (doc : Doc) (c : string) :
  In c (_extract_companies doc) ->
  c <> EmptyString
  /\ Py.strip c = c
  /\ Py.contains "(" c = false
  /\ exists sent,
       In sent (sents doc)
       /\ Py.contains " at " (sent_text sent) = true
       /\ c = company_of (sent_text sent).
Proof.
  intros Hin. apply companies_In in Hin as (pre & org & post & Hs & _ & Hc & Hne).
  apply companies_loop_current in Hc as (sent & Hin & Hat & ->).
  destruct (company_of_shape _ Hat) as (before & after & name & rest & _ & _ & _ & _
                                        & Hname & Hco).
  split; [exact Hne|]. split; [rewrite Hco; apply strip_idem|].
  split; [rewrite Hco; apply contains_strip, Hname|].
  exists sent. split; [|split; [exact Hat | reflexivity]].
  rewrite Hs. apply in_or_app.
  apply in_app_or in Hin as [Hin | [<- | []]]; [left; exact Hin | right; left; reflexivity].
Qed.

Lemma companies_are_clean_names_witness :
  "Acme Corp" <> EmptyString
  /\ Py.strip "Acme Corp" = "Acme Corp"
  /\ Py.contains "(" "Acme Corp" = false
  /\ exists sent,
       In sent (sents Sample.python_twice)
       /\ Py.contains " at " (sent_text sent) = true
       /\ "Acme Corp" = company_of (sent_text sent).
Proof.
  apply (companies_are_clean_names Sample.python_twice "Acme Corp").
  vm_compute. left. reflexivity.
Defined.

(** X13: a document in which no sentence holds an ORG entity has no
    companies, however often " at " occurs. *)
Theorem companies_need_an_org (doc : Doc) :
  Forall (fun sent => has_org sent = false) (sents doc) ->
  _extract_companies doc = [].
Proof.
  intros Hnone. destruct (_extract_companies doc) as [|c l] eqn:E; [reflexivity|].
  assert (In c (_extract_companies doc)) as Hin by (rewrite E; left; reflexivity).
  apply companies_In in Hin as (pre & org & post & Hs & Horg & _).
  rewrite List.Forall_forall in Hnone.
  rewrite Hnone in Horg; [discriminate|].
  rewrite Hs. apply in_or_app. right. left. reflexivity.
Qed.

Lemma companies_need_an_org_witness :
  _extract_companies
    (mk_doc [] [] [mk_sent "I worked at Acme Corp (NYC)" [mk_span "NYC" "GPE" "appos"]] [])
  = [].
Proof.
  apply companies_need_an_org. constructor; [reflexivity | constructor].
Defined.

(** X14: the skills hold no string twice, and a string is a skill exactly
    when it is a noun chunk whose text contains, letter case aside, the text
    of some token of the document that is a VERB with lemma develop, design
    or build, or when it is the text of a TECH entity. *)
Theorem skills_are_build_chunks_and_tech (doc : Doc) :
  List.NoDup (_extract_skills doc)
  /\ (forall x,
        In x (_extract_skills doc) <->
        (In x (noun_chunks doc)
         /\ exists t,
              In t (tokens doc)
              /\ pos_ t = "VERB"
              /\ (lemma_ t = "develop" \/ lemma_ t = "design" \/ lemma_ t = "build")
              /\ Py.contains (Py.lower (tok_text t)) (Py.lower x) = true)
        \/ (exists ent, In ent (ents doc) /\ label_ ent = "TECH" /\ text ent = x)).
Proof.
  split; [apply skills_NoDup|].
  intros x. rewrite skills_In, with_label_In.
  assert (chunk_is_skill doc x = true <->
          exists t,
            In t (tokens doc)
            /\ pos_ t = "VERB"
            /\ (lemma_ t = "develop" \/ lemma_ t = "design" \/ lemma_ t = "build")
            /\ Py.contains (Py.lower (tok_text t)) (Py.lower x) = true) as Hchunk.
  { unfold chunk_is_skill. rewrite existsb_exists. split.
    - intros (t & Hin & Hc). apply filter_In in Hin as [Hin Hv].
      unfold is_build_verb, in_list in Hv. cbn [existsb] in Hv.
      apply andb_prop in Hv as [Hpos Hlemma].
      apply String.eqb_eq in Hpos.
      rewrite orb_false_r, !orb_true_iff, !String.eqb_eq in Hlemma.
      exists t. repeat split; tauto.
    - intros (t & Hin & Hpos & Hlemma & Hc). exists t. split; [|exact Hc].
      apply filter_In. split; [exact Hin|].
      unfold is_build_verb, in_list. cbn [existsb].
      apply andb_true_intro. split; [apply String.eqb_eq, Hpos|].
      rewrite orb_false_r, !orb_true_iff, !String.eqb_eq. tauto. }
  rewrite Hchunk. reflexivity.
Qed.

(** X15: the positions hold no string twice, and a string is a position
    exactly when it is the text of an entity labelled TITLE, or of an
    entity whose root has the dependency "attr" and whose text contains
    "experience", letter case aside. *)
Theorem positions_are_titles_and_experience (doc : Doc) :
  List.NoDup (_extract_positions doc)
  /\ (forall x,
        In x (_extract_positions doc) <->
        exists ent,
          In ent (ents doc)
          /\ text ent = x
          /\ (label_ ent = "TITLE"
              \/ (root_dep_ ent = "attr"
                  /\ Py.contains "experience" (Py.lower (text ent)) = true))).
Proof.
  unfold _extract_positions. split; [apply list_set_NoDup|].
  intros x. rewrite list_set_In, in_map_iff. split.
  - intros (ent & Htext & Hin). apply filter_In in Hin as [Hin Hpos].
    exists ent. split; [exact Hin|]. split; [exact Htext|].
    unfold is_position in Hpos.
    rewrite orb_true_iff, andb_true_iff, !String.eqb_eq in Hpos. exact Hpos.
  - intros (ent & Hin & Htext & Hpos). exists ent. split; [exact Htext|].
    apply filter_In. split; [exact Hin|]. unfold is_position.
    rewrite orb_true_iff, andb_true_iff, !String.eqb_eq. exact Hpos.
Qed.

(** ** More on the batch driver *)

Lemma lower_split (s a b : string) :
  Py.lower s = a ++ b ->
  exists s1 s2, s = s1 ++ s2 /\ Py.lower s1 = a /\ Py.lower s2 = b.
Proof.
  revert s. induction a as [|x a IH]; intros s H.
  - exists EmptyString, s. repeat split. exact H.
  - destruct s as [|c s]; [discriminate|].
    rewrite lower_cons, append_cons in H. injection H as Hc H.
    destruct (IH s H) as (s1 & s2 & -> & H1 & H2).
    exists (String c s1), s2. rewrite lower_cons, Hc, H1. repeat split. exact H2.
Qed.

(** A name passes the ".pdf" test when it ends in ".pdf" in some letter
    case. *)
Lemma is_pdf_iff (file : string) :
  is_pdf file = true <->
  exists stem ext, file = stem ++ ext /\ Py.lower ext = ".pdf".
Proof.
  unfold is_pdf. rewrite endswith_iff. split.
  - intros [p H]. destruct (lower_split _ _ _ H) as (stem & ext & Hf & _ & Hext).
    exists stem, ext. split; assumption.
  - intros (stem & ext & -> & Hext). exists (Py.lower stem).
    rewrite lower_append, Hext. reflexivity.
Qed.

Section BatchMore.

Variable env : Env.
Variable json_text : ResumeRecord -> string.
Variables input_dir output_dir : string.

Local Abbreviation step := (process_file env json_text input_dir output_dir).
Local Abbreviation run := (process_resumes env json_text input_dir output_dir).

Lemma process_file_other (w : World) (file : string) :
  is_pdf file = false -> step w file = w.
Proof. intros H. unfold process_file. rewrite H. reflexivity. Qed.

Lemma process_file_frame (w : World) (file path : string) :
  (is_pdf file = true -> output_path output_dir file <> path) ->
  fs (step w file) !! path = fs w !! path.
Proof.
  intros Hne. destruct (is_pdf file) eqn:Hpdf;
    [|rewrite process_file_other by exact Hpdf; reflexivity].
  specialize (Hne eq_refl). rewrite (process_file_fs _ _ _ _ w file Hpdf).
  destruct (parse_resume env (Path.join input_dir file)) as [r|e]; [|reflexivity].
  destruct (fs_write env file); rewrite ?lookup_insert_ne by exact Hne; reflexivity.
Qed.

Lemma process_resumes_frame (listing : list string) (w : World) (path : string) :
  (forall file, In file listing -> is_pdf file = true ->
                output_path output_dir file <> path) ->
  fs (run listing w) !! path = fs w !! path.
Proof.
  revert w. induction listing as [|file l IH]; intros w H; [reflexivity|].
  rewrite process_resumes_cons, IH.
  - apply process_file_frame. apply H. left. reflexivity.
  - intros f Hin. apply H. right. exact Hin.
Qed.

Lemma process_file_written (w : World) (file : string) :
  is_pdf file = true ->
  failure env input_dir file = None ->
  exists r,
    parse_resume env (Path.join input_dir file) = Ok r
    /\ fs (step w file) = <[output_path output_dir file := json_text r]> (fs w).
Proof.
  intros Hpdf Hok. rewrite (process_file_fs _ _ _ _ w file Hpdf).
  unfold failure in Hok.
  destruct (parse_resume env (Path.join input_dir file)) as [r|e]; [|discriminate].
  exists r. split; [reflexivity|].
  destruct (fs_write env file); [reflexivity | discriminate | discriminate].
Qed.

End BatchMore.

(** X16: files whose names do not end in ".pdf", in whatever letter case,
    are passed over: the batch does what the batch of its pdf files does. *)
Theorem batch_is_batch_of_pdf_files :
  (forall env json_text input_dir output_dir listing w,
      process_resumes env json_text input_dir output_dir listing w
      = process_resumes env json_text input_dir output_dir
          (List.filter is_pdf listing) w)
  /\ (forall file,
        is_pdf file = true <->
        exists stem ext, file = stem ++ ext /\ Py.lower ext = ".pdf").
Proof.
  split; [|apply is_pdf_iff].
  intros env json_text input_dir output_dir listing.
  induction listing as [|file l IH]; intros w; [reflexivity|].
  cbn [List.filter]. destruct (is_pdf file) eqn:Hpdf.
  - rewrite !process_resumes_cons. apply IH.
  - rewrite process_resumes_cons, process_file_other by exact Hpdf. apply IH.
Qed.

(** X17: the batch creates or changes no file but the output files of its
    pdf files: every other path holds after the batch what it held
    before. *)
Theorem batch_touches_only_its_outputs
        (env : Env) (json_text : ResumeRecord -> string)
        (input_dir output_dir : string) (listing : list string) (w : World)
        (path : string) :
  (forall file, In file listing -> is_pdf file = true ->
                output_path output_dir file <> path) ->
  fs (process_resumes env json_text input_dir output_dir listing w) !! path
  = fs w !! path.
Proof. apply process_resumes_frame. Qed.

Lemma batch_touches_only_its_outputs_witness :
  fs (process_resumes Sample.two_pages Sample.json "input/resumes" "output/processed"
        ["cv.pdf"]
        {| fs := {[ "output/processed/old.json" := "kept" ]}; stdout := [] |})
  !! "output/processed/old.json" = Some "kept".
Proof.
  rewrite (batch_touches_only_its_outputs Sample.two_pages Sample.json
             "input/resumes" "output/processed" ["cv.pdf"] _
             "output/processed/old.json").
  - reflexivity.
  - intros file [<- | []] _. discriminate.
Defined.

(** X18: when every pdf file of the batch is handled without an error and
    no two of them share an output path, nothing is printed and, after the
    batch, the output path of each pdf file holds the JSON text of the
    record parsed from that file. *)
Theorem batch_writes_one_json_per_pdf
        (env : Env) (json_text : ResumeRecord -> string)
        (input_dir output_dir : string) (listing : list string) (w : World) :
  (forall file, In file listing -> is_pdf file = true ->
                failure env input_dir file = None) ->
  List.NoDup (List.map (output_path output_dir) (List.filter is_pdf listing)) ->
  stdout (process_resumes env json_text input_dir output_dir listing w) = stdout w
  /\ (forall file,
        In file listing -> is_pdf file = true ->
        exists r,
          parse_resume env (Path.join input_dir file) = Ok r
          /\ fs (process_resumes env json_text input_dir output_dir listing w)
             !! output_path output_dir file = Some (json_text r)).
Proof.
  intros Hok Hnodup. split.
  - rewrite process_resumes_stdout.
    assert (flat_map (printed env input_dir) listing = []) as ->;
      [|apply app_nil_r].
    induction listing as [|file l IH]; [reflexivity|].
    cbn [flat_map]. rewrite IH.
    + unfold printed. destruct (is_pdf file) eqn:Hpdf; [|reflexivity].
      rewrite (Hok file (or_introl eq_refl) Hpdf). reflexivity.
    + intros f Hin. apply Hok. right. exact Hin.
    + cbn [List.filter] in Hnodup. destruct (is_pdf file); [|exact Hnodup].
      apply NoDup_cons_iff in Hnodup as [_ Hnodup]. exact Hnodup.
  - intros file Hin Hpdf.
    destruct (in_split _ _ Hin) as (pre & post & ->).
    rewrite process_resumes_app, process_resumes_cons.
    destruct (process_file_written env json_text input_dir output_dir
                (process_resumes env json_text input_dir output_dir pre w) file Hpdf
                (Hok file Hin Hpdf)) as (r & Hr & Hfs).
    exists r. split; [exact Hr|].
    rewrite process_resumes_frame, Hfs; [apply lookup_insert_eq|].
    intros f Hf Hfpdf Heq.
    rewrite List.filter_app, List.map_app in Hnodup. cbn [List.filter] in Hnodup.
    rewrite Hpdf in Hnodup. cbn [List.map] in Hnodup.
    apply NoDup_remove_2 in Hnodup. apply Hnodup.
    apply in_or_app. right. rewrite <- Heq.
    apply in_map, filter_In. split; assumption.
Qed.

Lemma batch_writes_one_json_per_pdf_witness :
  stdout (process_resumes Sample.two_pages Sample.json "input/resumes" "output/processed"
            ["ann.pdf"; "notes.txt"; "bob.PDF"] Sample.empty_world) = [].
Proof.
  apply (batch_writes_one_json_per_pdf Sample.two_pages Sample.json
           "input/resumes" "output/processed" ["ann.pdf"; "notes.txt"; "bob.PDF"]
           Sample.empty_world).
  - intros file _ _. reflexivity.
  - vm_compute. repeat constructor; intros H; repeat destruct H as [H|H];
      try discriminate H; destruct H.
Defined.

(** X19: two pdf files with the same output path, as cv.pdf and cv.PDF: when
    the second is handled without an error, the files end up as if the
    first had never been handled; its output is overwritten. *)
Theorem later_file_overwrites_earlier
        (env : Env) (json_text : ResumeRecord -> string)
        (input_dir output_dir : string) (first second : string) (w : World) :
  is_pdf first = true ->
  is_pdf second = true ->
  output_path output_dir first = output_path output_dir second ->
  failure env input_dir second = None ->
  fs (process_resumes env json_text input_dir output_dir [first; second] w)
  = fs (process_resumes env json_text input_dir output_dir [second] w).
Proof.
  intros Hpdf1 Hpdf2 Hpath Hok. cbn [process_resumes List.fold_left].
  destruct (process_file_written env json_text input_dir output_dir
              (process_file env json_text input_dir output_dir w first) second Hpdf2 Hok)
    as (r & Hr & ->).
  destruct (process_file_written env json_text input_dir output_dir w second Hpdf2 Hok)
    as (r' & Hr' & ->).
  rewrite Hr in Hr'. injection Hr' as <-.
  rewrite (process_file_fs _ _ _ _ w first Hpdf1), Hpath.
  destruct (parse_resume env (Path.join input_dir first)) as [r1|e]; [|reflexivity].
  destruct (fs_write env first); rewrite ?insert_insert_eq; reflexivity.
Qed.

Lemma later_file_overwrites_earlier_witness :
  fs (process_resumes Sample.two_pages Sample.json "input/resumes" "output/processed"
        ["cv.pdf"; "cv.PDF"] Sample.empty_world)
  = fs (process_resumes Sample.two_pages Sample.json "input/resumes" "output/processed"
          ["cv.PDF"] Sample.empty_world).
Proof.
  apply later_file_overwrites_earlier; reflexivity.
Defined.

(** ** Names of the output files *)

Lemma char_absent_cons (c x : ascii) (s : string) :
  Py.contains (String c EmptyString) (String x s) = false ->
  Ascii.eqb x c = false /\ Py.contains (String c EmptyString) s = false.
Proof.
  rewrite contains_cons. cbn [Py.startswith]. rewrite andb_true_r.
  intros H. apply orb_false_elim in H as [H1 H2].
  rewrite Ascii.eqb_sym. split; assumption.
Qed.

Lemma rfind_go_absent (c : ascii) (s : string) :
  forall i found,
    Py.contains (String c EmptyString) s = false ->
    Path.rfind_go c s i found = found.
Proof.
  induction s as [|x s IH]; intros i found H; [reflexivity|].
  apply char_absent_cons in H as [Hx Hs].
  cbn [Path.rfind_go]. rewrite Hx. apply IH, Hs.
Qed.

Lemma rfind_go_app (c : ascii) (a b : string) :
  forall i found,
    Path.rfind_go c (a ++ b) i found
    = Path.rfind_go c b (i + Z.of_nat (String.length a))%Z (Path.rfind_go c a i found).
Proof.
  induction a as [|x a IH]; intros i found.
  - rewrite append_nil_l. cbn [String.length Path.rfind_go Z.of_nat].
    rewrite Z.add_0_r. reflexivity.
  - rewrite append_cons. cbn [Path.rfind_go]. rewrite IH.
    f_equal. cbn [String.length]. lia.
Qed.

(** [rfind] finds the last occurrence. *)
Lemma rfind_last (c : ascii) (a b : string) :
  Py.contains (String c EmptyString) b = false ->
  Path.rfind c (a ++ String c b) = Z.of_nat (String.length a).
Proof.
  intros Hb. unfold Path.rfind. rewrite rfind_go_app. cbn [Path.rfind_go].
  rewrite Ascii.eqb_refl, rfind_go_absent by exact Hb. lia.
Qed.

Lemma rfind_absent (c : ascii) (s : string) :
  Py.contains (String c EmptyString) s = false -> Path.rfind c s = (-1)%Z.
Proof. apply rfind_go_absent. Qed.

Lemma substring_0_length (a b : string) :
  String.substring 0 (String.length a) (a ++ b) = a.
Proof.
  induction a as [|x a IH]; [destruct b; reflexivity|].
  rewrite append_cons. cbn [String.length String.substring]. rewrite IH. reflexivity.
Qed.

Lemma take_length (a b : string) : Py.take (String.length a) (a ++ b) = a.
Proof.
  induction a as [|x a IH]; [destruct b; reflexivity|].
  rewrite append_cons. cbn [String.length Py.take]. rewrite IH. reflexivity.
Qed.

Lemma lower_char_dot (c : ascii) : Py.lower_char c = "."%char -> c = "."%char.
Proof.
  destruct c as [[] [] [] [] [] [] [] []]; vm_compute; intros H;
    first [reflexivity | discriminate H].
Qed.

Lemma lower_letter_not (c x l : ascii) :
  Py.lower_char c = l -> Py.lower_char x = x -> x <> l -> Ascii.eqb c x = false.
Proof.
  intros Hc Hx Hne. destruct (Ascii.eqb_spec c x) as [->|]; [|reflexivity].
  congruence.
Qed.

(** The parts of a name that passes the ".pdf" test. *)
Lemma pdf_extension (ext : string) :
  Py.lower ext = ".pdf" ->
  exists rest,
    ext = String "." rest
    /\ Py.contains "." rest = false
    /\ Py.contains "/" rest = false.
Proof.
  intros H.
  destruct ext as [|c0 [|c1 [|c2 [|c3 [|c4 ext]]]]]; try discriminate H.
  rewrite !lower_cons in H. injection H as H0 H1 H2 H3.
  apply lower_char_dot in H0. subst c0.
  exists (String c1 (String c2 (String c3 EmptyString))). split; [reflexivity|].
  split; rewrite !contains_cons; cbn [Py.startswith Py.contains];
    rewrite !andb_true_r, !orb_false_r.
  - rewrite (Ascii.eqb_sym "." c1), (Ascii.eqb_sym "." c2), (Ascii.eqb_sym "." c3).
    rewrite (lower_letter_not c1 "." _ H1), (lower_letter_not c2 "." _ H2),
      (lower_letter_not c3 "." _ H3) by (reflexivity || discriminate).
    reflexivity.
  - rewrite (Ascii.eqb_sym "/" c1), (Ascii.eqb_sym "/" c2), (Ascii.eqb_sym "/" c3).
    rewrite (lower_letter_not c1 "/" _ H1), (lower_letter_not c2 "/" _ H2),
      (lower_letter_not c3 "/" _ H3) by (reflexivity || discriminate).
    reflexivity.
Qed.

Lemma splitext_root_pdf (stem ext : string) :
  Py.contains "/" stem = false ->
  Py.lower ext = ".pdf" ->
  Path.splitext_root (stem ++ ext)
  = if Path.has_non_dot stem then stem else stem ++ ext.
Proof.
  intros Hstem Hext. destruct (pdf_extension ext Hext) as (rest & -> & Hdot & Hslash).
  unfold Path.splitext_root.
  rewrite (rfind_last "." stem rest Hdot).
  rewrite (rfind_absent "/" (stem ++ String "." rest)).
  - assert ((-1 <? Z.of_nat (String.length stem))%Z = true) as -> by (apply Z.ltb_lt; lia).
    replace (Z.to_nat (-1 + 1)) with 0%nat by reflexivity.
    replace (Z.to_nat (Z.of_nat (String.length stem) - -1 - 1))
      with (String.length stem) by lia.
    rewrite substring_0_length, Nat2Z.id, take_length. reflexivity.
  - rewrite contains_char_append, Hstem. cbn [orb].
    rewrite contains_cons. cbn [Py.startswith]. rewrite Hslash. reflexivity.
Qed.

Lemma no_leading_slash (s t : string) :
  s <> EmptyString ->
  Py.contains "/" s = false ->
  Py.startswith (s ++ t) "/" = false.
Proof.
  intros Hne Hs. destruct s as [|c s]; [congruence|].
  apply char_absent_cons in Hs as [Hc _].
  rewrite append_cons. cbn [Py.startswith]. rewrite Ascii.eqb_sym, Hc. reflexivity.
Qed.

Lemma has_non_dot_nonempty (s : string) : Path.has_non_dot s = true -> s <> EmptyString.
Proof. destruct s; [discriminate | discriminate]. Qed.

(** X20: a pdf file whose name is the stem followed by ".pdf" in some
    letter case is written to <output_dir>/<stem>.json; when the stem is
    empty or made of dots only, as in ".pdf", the whole name is kept and
    ".json" is added to it. *)
Theorem output_file_is_stem_json (output_dir file : string) :
  is_pdf file = true ->
  Py.contains "/" file = false ->
  Py.truthy output_dir = true ->
  Py.endswith output_dir "/" = false ->
  exists stem ext,
    file = stem ++ ext
    /\ Py.lower ext = ".pdf"
    /\ output_path output_dir file
       = output_dir ++ "/" ++ (if Path.has_non_dot stem then stem else file) ++ ".json".
Proof.
  intros Hpdf Hslash Hdir Hend.
  apply is_pdf_iff in Hpdf as (stem & ext & -> & Hext).
  exists stem, ext. split; [reflexivity|]. split; [exact Hext|].
  assert (Py.contains "/" stem = false) as Hstem.
  { rewrite contains_char_append in Hslash.
    apply orb_false_elim in Hslash as [H _]. exact H. }
  unfold output_path. rewrite (splitext_root_pdf stem ext Hstem Hext).
  unfold Path.join. rewrite Hdir, Hend. cbn [negb orb].
  assert (Py.startswith ((if Path.has_non_dot stem then stem else stem ++ ext) ++ ".json")
                        "/" = false) as ->; [|reflexivity].
  destruct (Path.has_non_dot stem) eqn:Hnd.
  - apply no_leading_slash; [apply has_non_dot_nonempty, Hnd | exact Hstem].
  - apply no_leading_slash; [|exact Hslash].
    destruct (pdf_extension ext Hext) as (rest & -> & _).
    destruct stem; discriminate.
Qed.

Lemma output_file_is_stem_json_witness :
  exists stem ext,
    "Ann Lee.v2.PDF" = stem ++ ext
    /\ Py.lower ext = ".pdf"
    /\ output_path "output/processed" "Ann Lee.v2.PDF"
       = "output/processed" ++ "/"
         ++ (if Path.has_non_dot stem then stem else "Ann Lee.v2.PDF") ++ ".json".
Proof.
  apply (output_file_is_stem_json "output/processed" "Ann Lee.v2.PDF"); reflexivity.
Defined.

(** ** More on the report log *)

Lemma lines_for_none (path : string) (calls : list report_call) :
  existsb (fun c => targets path c && opened c) calls = false ->
  lines_for path calls = EmptyString.
Proof.
  induction calls as [|c rest IH]; [reflexivity|].
  cbn [existsb lines_for]. intros H. apply orb_false_elim in H as [Hc Hrest].
  rewrite (IH Hrest), append_nil_r.
  destruct (targets path c); [|reflexivity].
  unfold opened in Hc. unfold written.
  destruct (call_outcome c); [discriminate Hc | reflexivity | discriminate Hc].
Qed.

Lemma save_report_call_lookup (files : gmap string string) (c : report_call)
      (path : string) :
  save_report_call files c !! path
  = if targets path c && opened c
    then Some (default EmptyString (files !! path) ++ written c)
    else files !! path.
Proof.
  unfold save_report_call, targets, opened, written, Report.save_report, Report.append.
  destruct (String.eqb (Report.report_path (call_dir c) (call_now1 c)) path) eqn:Hc.
  - apply String.eqb_eq in Hc. rewrite Hc.
    destruct (call_outcome c); cbn [fst andb];
      [apply lookup_insert_eq | reflexivity | apply lookup_insert_eq].
  - apply String.eqb_neq in Hc.
    destruct (call_outcome c); cbn [fst andb];
      [apply lookup_insert_ne, Hc | reflexivity | apply lookup_insert_ne, Hc].
Qed.

(** X21: after any number of calls of [save_report], a file that some call
    named and could open holds what it held before followed by what the
    calls that named it wrote, in the order of the calls: the whole line of
    a call that went well, nothing for a call whose [open] raised, the part
    that reached the file for a call whose write failed.  A file that no
    call opened is as it was. *)
Theorem log_holds_lines_in_call_order
        (calls : list report_call) (files : gmap string string) (path : string) :
  save_reports calls files !! path
  = if existsb (fun c => targets path c && opened c) calls
    then Some (default EmptyString (files !! path) ++ lines_for path calls)
    else files !! path.
Proof.
  revert files. induction calls as [|c rest IH]; intros files; [reflexivity|].
  change (save_reports (c :: rest) files)
    with (save_reports rest (save_report_call files c)).
  rewrite IH, save_report_call_lookup. cbn [existsb lines_for].
  destruct (targets path c) eqn:Hc; cbn [andb orb].
  - destruct (opened c) eqn:Ho; cbn [orb default from_option id].
    + destruct (existsb (fun c => targets path c && opened c) rest) eqn:Hrest.
      * rewrite append_assoc. reflexivity.
      * rewrite (lines_for_none _ _ Hrest), append_nil_r. reflexivity.
    + assert (written c = EmptyString) as ->.
      { unfold opened in Ho. unfold written.
        destruct (call_outcome c); [discriminate Ho | reflexivity | discriminate Ho]. }
      rewrite append_nil_l. reflexivity.
  - rewrite append_nil_l. reflexivity.
Qed.

(** Three calls on the same day: the second finds the directory gone. *)
Example log_holds_lines_example :
  save_reports
    [mk_call Report.Appended Sample.morning Sample.morning "reports" None None;
     mk_call (Report.OpenFails Sample.no_such_directory)
             Sample.morning Sample.morning_later "reports" (Some "a.pdf") (Some "boom");
     mk_call Report.Appended Sample.morning Sample.morning_later "reports"
             (Some "b.pdf") (Some "bang")] ∅
  = {[ "reports/report_20261103.log" :=
         "[2026-11-03 09:50:07] Processing started" ++ nl
         ++ "[2026-11-03 09:50:07.125000] Error processing b.pdf: bang" ++ nl ]}.
Proof. vm_compute. reflexivity. Qed.

Lemma append_inv_head (a x y : string) : a ++ x = a ++ y -> x = y.
Proof.
  induction a as [|c a IH]; [intros H; exact H|].
  rewrite !append_cons. intros [= H]. exact (IH H).
Qed.

Lemma append_inv_length (a a' b b' : string) :
  String.length a = String.length a' ->
  a ++ b = a' ++ b' -> a = a' /\ b = b'.
Proof.
  revert a'. induction a as [|c a IH]; intros [|c' a'] Hlen H; try discriminate Hlen.
  - split; [reflexivity | exact H].
  - rewrite !append_cons in H. injection H as -> H. injection Hlen as Hlen.
    destruct (IH a' Hlen H) as [-> ->]. split; reflexivity.
Qed.

Lemma digit_inj (n m : Z) : Report.digit n = Report.digit m -> (n mod 10 = m mod 10)%Z.
Proof.
  unfold Report.digit. intros H.
  pose proof (Z.mod_pos_bound n 10 ltac:(lia)) as Hn.
  pose proof (Z.mod_pos_bound m 10 ltac:(lia)) as Hm.
  apply (f_equal N_of_ascii) in H.
  rewrite !N_ascii_embedding in H by lia. lia.
Qed.

(** Printing a number with enough digits loses nothing. *)
Lemma dec_inj (width : nat) :
  forall n m,
    (0 <= n < 10 ^ Z.of_nat width)%Z ->
    (0 <= m < 10 ^ Z.of_nat width)%Z ->
    Report.dec width n = Report.dec width m -> n = m.
Proof.
  induction width as [|w IH]; intros n m Hn Hm H.
  - change (10 ^ Z.of_nat 0)%Z with 1%Z in *. lia.
  - cbn [Report.dec] in H.
    apply append_inv_length in H as [Hhi Hlo]; [|rewrite !dec_length; reflexivity].
    injection Hlo as Hlo. apply digit_inj in Hlo.
    rewrite Nat2Z.inj_succ, Z.pow_succ_r in Hn, Hm by lia.
    assert (n / 10 = m / 10)%Z as Hdiv.
    { apply IH; [| |exact Hhi].
      - split; [apply Z.div_pos; lia | apply Z.div_lt_upper_bound; lia].
      - split; [apply Z.div_pos; lia | apply Z.div_lt_upper_bound; lia]. }
    rewrite (Z.div_mod n 10), (Z.div_mod m 10) by lia. lia.
Qed.

Lemma path_join_inv (a x y : string) :
  Py.startswith x "/" = false -> Py.startswith y "/" = false ->
  Path.join a x = Path.join a y -> x = y.
Proof.
  intros Hx Hy. unfold Path.join. rewrite Hx, Hy.
  destruct (negb (Py.truthy a) || Py.endswith a "/"); intros H.
  - exact (append_inv_head _ _ _ H).
  - apply append_inv_head in H. exact (append_inv_head _ _ _ H).
Qed.

Lemma strftime_Y_inj (y1 y2 : Z) :
  (0 <= y1 < 10000)%Z -> (0 <= y2 < 10000)%Z ->
  Report.strftime_Y y1 = Report.strftime_Y y2 -> y1 = y2.
Proof.
  intros H1 H2. unfold Report.strftime_Y.
  destruct (y1 <? 10)%Z eqn:A1; [|destruct (y1 <? 100)%Z eqn:B1;
    [|destruct (y1 <? 1000)%Z eqn:C1]];
  (destruct (y2 <? 10)%Z eqn:A2; [|destruct (y2 <? 100)%Z eqn:B2;
    [|destruct (y2 <? 1000)%Z eqn:C2]]);
  intros H;
  try (apply (f_equal String.length) in H; rewrite !dec_length in H; discriminate H);
  rewrite ?Z.ltb_lt, ?Z.ltb_ge in *.
  - apply (dec_inj 1); [change (10 ^ Z.of_nat 1)%Z with 10%Z; lia ..|exact H].
  - apply (dec_inj 2); [change (10 ^ Z.of_nat 2)%Z with 100%Z; lia ..|exact H].
  - apply (dec_inj 3); [change (10 ^ Z.of_nat 3)%Z with 1000%Z; lia ..|exact H].
  - apply (dec_inj 4); [change (10 ^ Z.of_nat 4)%Z with 10000%Z; lia ..|exact H].
Qed.

Lemma days_in_month_le (y m : Z) : (Datetime.days_in_month y m <= 31)%Z.
Proof.
  unfold Datetime.days_in_month.
  destruct (m =? 2)%Z; [destruct (Datetime.is_leap y); lia|].
  destruct ((m =? 4) || (m =? 6) || (m =? 9) || (m =? 11))%Z; lia.
Qed.

(** X22: the report file is a file per day: two calls write to the same
    file of a report directory exactly when the dates of their clock
    readings have the same year, month and day. *)
Theorem report_file_per_day (report_dir : string) (d1 d2 : datetime) :
  Datetime.valid_date d1 -> Datetime.valid_date d2 ->
  Report.report_path report_dir d1 = Report.report_path report_dir d2
  <-> year d1 = year d2 /\ month d1 = month d2 /\ day d1 = day d2.
Proof.
  intros (Hy1 & Hm1 & Hd1) (Hy2 & Hm2 & Hd2).
  pose proof (days_in_month_le (year d1) (month d1)) as Hmax1.
  pose proof (days_in_month_le (year d2) (month d2)) as Hmax2.
  split.
  - unfold Report.report_path, Report.strftime_Ymd. intros H.
    apply path_join_inv in H; [|reflexivity|reflexivity].
    apply append_inv_head in H.
    assert (Hlen : String.length (Report.strftime_Y (year d1))
                   = String.length (Report.strftime_Y (year d2))).
    { apply (f_equal String.length) in H.
      rewrite !length_append, !dec_length in H. lia. }
    apply append_inv_length in H as [H _];
      [|rewrite !length_append, !dec_length, Hlen; reflexivity].
    apply append_inv_length in H as [Hy H]; [|exact Hlen].
    apply append_inv_length in H as [Hm Hd]; [|rewrite !dec_length; reflexivity].
    split; [|split].
    + apply strftime_Y_inj; [lia | lia | exact Hy].
    + apply (dec_inj 2); [change (10 ^ Z.of_nat 2)%Z with 100%Z; lia ..|exact Hm].
    + apply (dec_inj 2); [change (10 ^ Z.of_nat 2)%Z with 100%Z; lia ..|exact Hd].
  - intros (Hy & Hm & Hd). unfold Report.report_path, Report.strftime_Ymd.
    rewrite Hy, Hm, Hd. reflexivity.
Qed.

Lemma report_file_per_day_witness :
  Datetime.valid_date Sample.morning /\ Datetime.valid_date Sample.morning_later
  /\ Report.report_path "reports" Sample.morning
     = Report.report_path "reports" Sample.morning_later.
Proof.
  assert (H1 : Datetime.valid_date Sample.morning)
    by (repeat split; vm_compute; congruence).
  assert (H2 : Datetime.valid_date Sample.morning_later)
    by (repeat split; vm_compute; congruence).
  split; [exact H1 | split; [exact H2|]].
  apply (report_file_per_day "reports" Sample.morning Sample.morning_later H1 H2).
  split; [|split]; reflexivity.
Defined.

(** In the year 999 the name of the file has seven digits. *)
Example report_path_year_999 :
  Report.report_path "reports" Sample.new_year_999 = "reports/report_9990102.log".
Proof. reflexivity. Qed.

(** ** The configuration file *)

Section ConfigPath.

Import Utils.

Lemma rooted_app (a b : list string) : rooted (a ++ b) = rooted a ++ rooted b.
Proof.
  induction a as [|c a IH]; [reflexivity|].
  cbn [rooted app]. rewrite IH, !append_assoc. reflexivity.
Qed.

Lemma rooted_snoc (cs : list string) (c : string) :
  rooted (cs ++ [c]) = rooted cs ++ String "/" c.
Proof. rewrite rooted_app. cbn [rooted]. rewrite append_nil_r. reflexivity. Qed.

Lemma all_slashes_append (a b : string) :
  all_slashes (a ++ b) = all_slashes a && all_slashes b.
Proof.
  induction a as [|c a IH]; [reflexivity|].
  rewrite append_cons. cbn [all_slashes]. rewrite IH, andb_assoc. reflexivity.
Qed.

Lemma component_not_slashes (c : string) : component c -> all_slashes c = false.
Proof.
  intros [Hne Hc]. destruct c as [|x c]; [congruence|].
  apply char_absent_cons in Hc as [Hx _]. cbn [all_slashes]. rewrite Hx. reflexivity.
Qed.

Lemma rstrip_slashes_cons (c : ascii) (s : string) :
  rstrip_slashes (String c s) =
  match rstrip_slashes s with
  | EmptyString => if Ascii.eqb c "/" then EmptyString else String c EmptyString
  | r => String c r
  end.
Proof. reflexivity. Qed.

Lemma rstrip_slashes_clean (c : string) :
  Py.contains "/" c = false -> rstrip_slashes c = c.
Proof.
  induction c as [|x c IH]; intros H; [reflexivity|].
  apply char_absent_cons in H as [Hx Hc].
  rewrite rstrip_slashes_cons, (IH Hc), Hx. destruct c; reflexivity.
Qed.

Lemma rstrip_slashes_append (a c : string) :
  component c -> rstrip_slashes (a ++ c) = a ++ c.
Proof.
  intros [Hne Hc]. induction a as [|x a IH]; [apply rstrip_slashes_clean, Hc|].
  rewrite append_cons, rstrip_slashes_cons, IH.
  destruct (a ++ c) eqn:E; [|reflexivity].
  destruct a; [rewrite append_nil_l in E; congruence | discriminate E].
Qed.

Lemma rstrip_slashes_slash (a : string) :
  rstrip_slashes (a ++ "/") = rstrip_slashes a.
Proof.
  induction a as [|x a IH]; [reflexivity|].
  rewrite append_cons, !rstrip_slashes_cons, IH. reflexivity.
Qed.

(** [dirname] of a path that ends in a component. *)
Lemma dirname_snoc (P c : string) :
  component c ->
  dirname (P ++ String "/" c)
  = if all_slashes P then P ++ "/" else rstrip_slashes P.
Proof.
  intros [Hne Hc]. unfold dirname.
  rewrite (rfind_last "/" P c Hc).
  replace (Z.to_nat (Z.of_nat (String.length P) + 1)) with (String.length (P ++ "/"))
    by (rewrite length_append; simpl; lia).
  replace (P ++ String "/" c) with ((P ++ "/") ++ c)
    by (rewrite append_assoc; reflexivity).
  rewrite take_length, all_slashes_append. cbn [all_slashes andb].
  rewrite andb_true_r.
  assert (Py.truthy (P ++ "/") = true) as -> by (destruct P; reflexivity).
  destruct (all_slashes P); cbn [negb andb]; [reflexivity|].
  apply rstrip_slashes_slash.
Qed.

Lemma rooted_cases (cs : list string) :
  Forall component cs ->
  (cs = [] /\ rooted cs = EmptyString)
  \/ (all_slashes (rooted cs) = false
      /\ rstrip_slashes (rooted cs) = rooted cs
      /\ Py.truthy (rooted cs) = true
      /\ Py.endswith (rooted cs) "/" = false).
Proof.
  intros H. destruct cs as [|c0 cs0] using rev_ind; [left; split; reflexivity|].
  right. apply Forall_app in H as [_ Hc]. apply Forall_inv in Hc.
  rewrite rooted_snoc.
  replace (rooted cs0 ++ String "/" c0) with ((rooted cs0 ++ "/") ++ c0)
    by (rewrite append_assoc; reflexivity).
  split; [|split; [|split]].
  - rewrite all_slashes_append, (component_not_slashes c0 Hc). apply andb_false_r.
  - apply rstrip_slashes_append, Hc.
  - rewrite append_assoc. destruct (rooted cs0); reflexivity.
  - destruct (Py.endswith ((rooted cs0 ++ "/") ++ c0) "/") eqn:E; [|reflexivity].
    apply endswith_iff in E as [p E]. destruct Hc as [Hne Hc].
    assert (exists c' x, c0 = c' ++ String x EmptyString) as (c' & x & ->).
    { clear -Hne. induction c0 as [|y c0 IH]; [congruence|].
      destruct c0 as [|z c0].
      - exists EmptyString, y. reflexivity.
      - destruct IH as (c' & x & ->); [discriminate|].
        exists (String y c'), x. reflexivity. }
    rewrite <- append_assoc in E. apply append_snoc_inj in E. subst x.
    rewrite contains_char_append in Hc. apply orb_false_elim in Hc as [_ Hc].
    discriminate Hc.
Qed.

Lemma dirname_rooted (cs : list string) (c : string) :
  Forall component cs -> component c ->
  dirname (rooted (cs ++ [c])) = if all_slashes (rooted cs) then "/" else rooted cs.
Proof.
  intros Hcs Hc. rewrite rooted_snoc, (dirname_snoc _ _ Hc).
  destruct (rooted_cases cs Hcs) as [[-> _] | (Hall & Hstrip & _)]; [reflexivity|].
  rewrite Hall. exact Hstrip.
Qed.

Lemma join_rooted (cs : list string) (c : string) :
  Forall component cs -> component c ->
  Path.join (if all_slashes (rooted cs) then "/" else rooted cs) c = rooted (cs ++ [c]).
Proof.
  intros Hcs [Hne Hc].
  assert (Py.startswith c "/" = false) as Hstart.
  { rewrite <- (append_nil_r c). apply no_leading_slash; assumption. }
  rewrite rooted_snoc. unfold Path.join. rewrite Hstart.
  destruct (rooted_cases cs Hcs) as [[-> _] | (Hall & _ & Htruthy & Hend)].
  - reflexivity.
  - rewrite Hall, Htruthy, Hend. reflexivity.
Qed.

End ConfigPath.

(** X23: [load_config] reads input/config.json beside the directory that
    holds utils.py: for utils.py at /c1/.../cn/dir/file it opens
    /c1/.../cn/input/config.json, raises what opening that file raises,
    and otherwise returns what the JSON decoder makes of its text. *)
Theorem load_config_reads_sibling_input
        (comps : list string) (dir file : string) :
  Forall Utils.component (comps ++ [dir; file]) ->
  Utils.config_path (Utils.rooted (comps ++ [dir; file]))
  = Utils.rooted (comps ++ ["input"; "config.json"])
  /\ (forall (Config : Type) (read_file : string -> result string)
             (json_loads : string -> result Config),
        Utils.load_config read_file json_loads (Utils.rooted (comps ++ [dir; file]))
        = match read_file (Utils.rooted (comps ++ ["input"; "config.json"])) with
          | Ok content => json_loads content
          | Raise e => Raise e
          end).
Proof.
  intros Hall.
  assert (Utils.config_path (Utils.rooted (comps ++ [dir; file]))
          = Utils.rooted (comps ++ ["input"; "config.json"])) as Hpath.
  { apply Forall_app in Hall as [Hcomps Hrest].
    apply Forall_cons_iff in Hrest as [Hdir Hrest]. apply Forall_inv in Hrest.
    assert (Utils.component "input") as Hinput by (split; [discriminate | reflexivity]).
    assert (Utils.component "config.json") as Hconfig
        by (split; [discriminate | reflexivity]).
    assert (Forall Utils.component (comps ++ [dir])) as Hcd
        by (apply Forall_app; split; [exact Hcomps | constructor; [exact Hdir | constructor]]).
    assert (Forall Utils.component (comps ++ ["input"])) as Hci
        by (apply Forall_app; split;
            [exact Hcomps | constructor; [exact Hinput | constructor]]).
    unfold Utils.config_path.
    change (comps ++ [dir; file])%list with (comps ++ [dir] ++ [file])%list.
    rewrite app_assoc, dirname_rooted by assumption.
    destruct (rooted_cases (comps ++ [dir]) Hcd) as [[Hnil _] | (Hns & _)];
      [destruct comps; discriminate Hnil|].
    rewrite Hns, dirname_rooted by assumption.
    rewrite join_rooted by assumption.
    destruct (rooted_cases (comps ++ ["input"]) Hci) as [[Hnil _] | (Hns' & _)];
      [destruct comps; discriminate Hnil|].
    pose proof (join_rooted (comps ++ ["input"]) "config.json" Hci Hconfig) as Hj.
    rewrite Hns' in Hj. rewrite Hj, <- app_assoc. reflexivity. }
  split; [exact Hpath|].
  intros Config read_file json_loads. unfold Utils.load_config. rewrite Hpath.
  reflexivity.
Qed.

Lemma load_config_reads_sibling_input_witness :
  Utils.config_path "/srv/resume-parser/scripts/utils.py"
  = "/srv/resume-parser/input/config.json".
Proof.
  assert (Forall Utils.component (["srv"; "resume-parser"] ++ ["scripts"; "utils.py"]))
    as Hall.
  { repeat (constructor; [split; [discriminate | reflexivity]|]). constructor. }
  apply (proj1 (load_config_reads_sibling_input ["srv"; "resume-parser"]
                  "scripts" "utils.py" Hall)).
Defined.
